(** * LIDAR workflow (ground + buildings -> DSM -> filled raster)

    A shallow embedding of the two variants of the workflow,
    [src/DSM.py] (standalone script) and [src/DSM-QGIS.py] (QGIS
    processing algorithm), and the properties of their orchestration
    layer: stage ordering, failure isolation, clean-up of transient
    files, tool detection, cancellation and path naming.

    The external engines (pdal, gdal_fillnodata) are opaque: a run of
    the program is a function of an environment [Env] that answers every
    interaction (what a spawned process does, whether a file operation
    fails, whether the user has cancelled). *)

From Stdlib Require Import List String Ascii ZArith Lia Bool Arith QArith DecimalString.
Import ListNotations.
Close Scope Q_scope.
Set Warnings "-register-all".

Open Scope string_scope.
Open Scope nat_scope.

(* ===================================================================== *)
(** * Python library functions used by the source                         *)
(* ===================================================================== *)

Module Py.

(** [str(n)] for an [int]. *)
Definition str_int (z : Z) : string := NilZero.string_of_int (Z.to_int z).

(** [str(n)] for a non-negative [int] such as [len(xs)]. *)
Definition str_nat (n : nat) : string := NilZero.string_of_uint (Nat.to_uint n).

(** [s * n]. *)
Fixpoint repeat_str (s : string) (n : nat) : string :=
  match n with
  | O => ""
  | S k => s ++ repeat_str s k
  end.

(** [sep.join(xs)]. *)
Fixpoint join (sep : string) (xs : list string) : string :=
  match xs with
  | [] => ""
  | [x] => x
  | x :: rest => x ++ sep ++ join sep rest
  end.

Definition chars (s : string) : list ascii := list_ascii_of_string s.
Definition of_chars (l : list ascii) : string := string_of_list_ascii l.

(** [str.isspace] on one character of the ASCII range: tab, line feed,
    vertical tab, form feed, carriage return, the separators 28..31
    and the blank. *)
Definition is_space (c : ascii) : bool :=
  let n := nat_of_ascii c in
  ((9 <=? n) && (n <=? 13)) || ((28 <=? n) && (n <=? 32)).

Fixpoint lstrip_chars (l : list ascii) : list ascii :=
  match l with
  | c :: rest => if is_space c then lstrip_chars rest else l
  | [] => []
  end.

(** [s.strip()]. *)
Definition strip (s : string) : string :=
  of_chars (rev (lstrip_chars (rev (lstrip_chars (chars s))))).

(** Truth value of a [str]: false exactly for the empty string. *)
Definition truthy (s : string) : bool :=
  match s with
  | EmptyString => false
  | String _ _ => true
  end.

Fixpoint list_prefix (p l : list ascii) : bool :=
  match p, l with
  | [], _ => true
  | a :: p', b :: l' => Ascii.eqb a b && list_prefix p' l'
  | _ :: _, [] => false
  end.

(** [s.endswith(suf)]. *)
Definition endswith (s suf : string) : bool :=
  list_prefix (rev (chars suf)) (rev (chars s)).

(** [fnmatch] of a name against the pattern ["*" + suf], where [suf]
    holds no wildcard: the name ends with [suf].  Matching is
    case-sensitive (the spec's "case as given"). *)
Definition fnmatch_star (suf name : string) : bool := endswith name suf.

(** [name.rfind('.')], as an index from the left; [None] is Python's -1. *)
Fixpoint rfind_dot_rev (r : list ascii) : option nat :=
  match r with
  | [] => None
  | c :: rest => if Ascii.eqb c "."%char then Some (List.length rest) else rfind_dot_rev rest
  end.

Definition rfind_dot (name : string) : option nat := rfind_dot_rev (rev (chars name)).

(** [PurePath.stem]: the final component without its last suffix; a
    leading dot or a trailing dot is no suffix. *)
Definition stem_of_name (name : string) : string :=
  match rfind_dot name with
  | Some i =>
      if (0 <? i) && (i <? String.length name - 1)
      then substring 0 i name
      else name
  | None => name
  end.

End Py.

(* ===================================================================== *)
(** * Paths and the file system                                           *)
(* ===================================================================== *)

(** A [pathlib.Path] as the list of its components. *)
Definition Path := list string.

(** [folder / name]. *)
Definition path_join (folder : Path) (name : string) : Path := (folder ++ [name])%list.

Declare Scope path_scope.
Delimit Scope path_scope with path.
Notation "p // n" := (path_join p n) (at level 40, left associativity) : path_scope.
Open Scope path_scope.

(** [p.name] *)
Definition name (p : Path) : string := last p "".

(** [p.parent] *)
Definition parent (p : Path) : Path := removelast p.

(** [p.stem] *)
Definition stem (p : Path) : string := Py.stem_of_name (name p).

(** [str(p)] *)
Definition str (p : Path) : string := Py.join "/" p.

Definition path_eqb (p q : Path) : bool :=
  if list_eq_dec string_dec p q then true else false.

(** JSON values, as [json.dump] receives them: a [dict] keeps the order
    of its keys.  The resolution is a Python float that the program only
    passes on; it is held as a rational. *)
Inductive json : Type :=
| JStr (s : string)
| JInt (z : Z)
| JFloat (q : Q)
| JList (items : list json)
| JDict (fields : list (string * json)).

(** What a regular file holds: a pipeline description written by the
    program, or data the program never looks into. *)
Inductive content : Type :=
| Described (j : json)
| Blob.

(** The regular files that exist, each with its content.  Directories
    are implicit: a file [d // n] lies directly in [d].  The first
    binding of a path is the file. *)
Definition FS := list (Path * content).

Definition fs_lookup (fs : FS) (p : Path) : option content :=
  match find (fun e => path_eqb (fst e) p) fs with
  | Some e => Some (snd e)
  | None => None
  end.

(** [p.exists()] *)
Definition fs_exists (fs : FS) (p : Path) : bool :=
  match fs_lookup fs p with Some _ => true | None => false end.

Definition fs_remove (fs : FS) (p : Path) : FS :=
  filter (fun e => negb (path_eqb (fst e) p)) fs.

Definition fs_write (fs : FS) (p : Path) (c : content) : FS :=
  (fs_remove fs p ++ [(p, c)])%list.

(** [folder.glob("*" + suf)]: the entries directly in [folder] whose
    name ends with [suf], each once.  One level only: a file in a
    sub-folder has a longer path and another parent. *)
Definition glob (fs : FS) (folder : Path) (suf : string) : list Path :=
  nodup (list_eq_dec string_dec)
    (filter (fun p => match p with
                      | [] => false
                      | _ :: _ => path_eqb (parent p) folder
                                  && Py.fnmatch_star suf (name p)
                      end) (map fst fs)).

(* ===================================================================== *)
(** * The environment, events and the program monad                       *)
(* ===================================================================== *)

(** What a spawned process does: it ends after [secs] seconds with an
    exit status and an error stream; it does not end on its own; or it
    cannot be started, and [subprocess.run] raises [OSError] with the
    message [msg] (the executable is missing or may not be run, the
    system has no room for another process). *)
Inductive behaviour : Type :=
| Exits (secs : Z) (code : Z) (stderr : string)
| Never
| SpawnFails (msg : string).

Inductive fsop : Type :=
| OpWrite (p : Path)
| OpUnlink (p : Path).

(** The environment.  The clock counts the processes spawned so far.
    - [exec t cmd fs]: what the process spawned at time [t] with command
      line [cmd] does, and the file system it leaves;
    - [io_error t op]: [Some msg] when the file operation [op] at time
      [t] raises [OSError] with the message [msg] (a locked or read-only
      file, a full disk), [None] when it succeeds;
    - [canceled t]: the user has requested cancellation by time [t]. *)
Record Env : Type := mkEnv {
  exec : nat -> list string -> FS -> behaviour * FS;
  io_error : nat -> fsop -> option string;
  canceled : nat -> bool
}.

Inductive event : Type :=
| EvWrite (p : Path) (j : json)                              (* open(p,'w'); json.dump *)
| EvRun (cmd : list string) (timeout : option Z) (b : behaviour)   (* subprocess.run *)
| EvUnlink (p : Path)                                        (* p.unlink(), done *)
| EvPoll (c : bool)                                          (* feedback.isCanceled() *)
| EvStep (n : nat)                                           (* feedback.setCurrentStep *)
| EvInfo (s : string)                                        (* feedback.pushInfo *)
| EvError (s : string)                                       (* feedback.reportError *)
| EvPrint (s : string).                                      (* print *)

Inductive exn : Type :=
| CalledProcessError (code : Z) (stderr : string)
| TimeoutExpired
| OSError (msg : string)
| PlainException (msg : string)
| SystemExit.

(** [isinstance(e, Exception)]: [SystemExit] derives from
    [BaseException] only. *)
Definition is_Exception (e : exn) : bool :=
  match e with SystemExit => false | _ => true end.

(** [str(e)].  Only the messages of [OSError] and [Exception] reach a
    handler that prints them; the two exceptions of [subprocess] are
    caught by the command runners, which print the error stream, and
    are given a short form here. *)
Definition str_exn (e : exn) : string :=
  match e with
  | CalledProcessError code _ =>
      "Command returned non-zero exit status " ++ Py.str_int code ++ "."
  | TimeoutExpired => "Command timed out"
  | OSError msg => msg
  | PlainException msg => msg
  | SystemExit => ""
  end.

(** The state of a run: the world (files, clock, what happened so far)
    and the two variables of the batch loop that outlive an iteration
    and an exception ([current_step] is the QGIS variant's only). *)
Record state : Type := mkState {
  fs : FS;
  clock : nat;
  log : list event;
  raster_outputs : list Path;
  current_step : nat
}.

Definition initial (files : FS) : state :=
  mkState files 0 [] [] 0.

Inductive res (A : Type) : Type :=
| Ok (a : A)
| Raised (e : exn)
| Hang.
Arguments Ok {A} a.
Arguments Raised {A} e.
Arguments Hang {A}.

Definition M (A : Type) : Type := state -> res A * state.

Definition ret {A} (a : A) : M A := fun s => (Ok a, s).

Definition bind {A B} (m : M A) (k : A -> M B) : M B :=
  fun s =>
    match m s with
    | (Ok a, s') => k a s'
    | (Raised e, s') => (Raised e, s')
    | (Hang, s') => (Hang, s')
    end.

Declare Scope prog_scope.
Delimit Scope prog_scope with prog.
Notation "x <- m ;; k" := (bind m (fun x => k))
  (at level 100, m at next level, right associativity) : prog_scope.
Notation "m ;; k" := (bind m (fun _ => k))
  (at level 100, right associativity) : prog_scope.
Open Scope prog_scope.

Definition raise {A} (e : exn) : M A := fun s => (Raised e, s).

Definition emit (e : event) : M unit :=
  fun s => (Ok tt, mkState (fs s) (clock s) (log s ++ [e]) (raster_outputs s) (current_step s)).

Definition get_fs : M FS := fun s => (Ok (fs s), s).

Definition get_raster_outputs : M (list Path) := fun s => (Ok (raster_outputs s), s).

(** [raster_outputs.append(p)] *)
Definition append_raster_output (p : Path) : M unit :=
  fun s => (Ok tt, mkState (fs s) (clock s) (log s) (raster_outputs s ++ [p]) (current_step s)).

(** [raster_outputs = []] *)
Definition reset_raster_outputs : M unit :=
  fun s => (Ok tt, mkState (fs s) (clock s) (log s) [] (current_step s)).

Definition get_current_step : M nat := fun s => (Ok (current_step s), s).

Definition set_current_step (n : nat) : M unit :=
  fun s => (Ok tt, mkState (fs s) (clock s) (log s) (raster_outputs s) n).

Inductive ctl : Type := Next | Break.

(** [for x in xs: body x], where the body says whether it left by
    [break]. *)
Fixpoint for_ {A} (xs : list A) (body : A -> M ctl) : M unit :=
  match xs with
  | [] => ret tt
  | x :: rest =>
      c <- body x ;;
      match c with
      | Break => ret tt
      | Next => for_ rest body
      end
  end.

(** [with open(p, 'w') as f: json.dump(j, f, indent=2)] *)
Definition write_json (env : Env) (p : Path) (j : json) : M unit :=
  fun s =>
    match io_error env (clock s) (OpWrite p) with
    | Some msg => (Raised (OSError msg), s)
    | None => (Ok tt, mkState (fs_write (fs s) p (Described j)) (clock s)
                              (log s ++ [EvWrite p j]) (raster_outputs s) (current_step s))
    end.

(** [p.exists()] *)
Definition path_exists (p : Path) : M bool :=
  fun s => (Ok (fs_exists (fs s) p), s).

(** [p.unlink()] *)
Definition unlink (env : Env) (p : Path) : M unit :=
  fun s =>
    if negb (fs_exists (fs s) p)
    then (Raised (OSError "No such file or directory"), s)
    else match io_error env (clock s) (OpUnlink p) with
         | Some msg => (Raised (OSError msg), s)
         | None => (Ok tt, mkState (fs_remove (fs s) p) (clock s)
                                   (log s ++ [EvUnlink p]) (raster_outputs s) (current_step s))
         end.

(** Whether a process that ends after [secs] seconds outlives the
    timeout. *)
Definition outlives (timeout : option Z) (secs : Z) : bool :=
  match timeout with
  | Some t => (t <? secs)%Z
  | None => false
  end.

(** [subprocess.run(cmd, check=True, capture_output=True, timeout=...)]:
    returns on exit status zero, raises [CalledProcessError] on any other
    status, [TimeoutExpired] when the timeout passes first, and whatever
    starting the process raises.  With no timeout, a process that never
    ends blocks the caller for ever. *)
Definition subprocess_run (env : Env) (cmd : list string) (timeout : option Z) : M unit :=
  fun s =>
    let '(b, fs') := exec env (clock s) cmd (fs s) in
    let after f := mkState f (S (clock s)) (log s ++ [EvRun cmd timeout b])
                           (raster_outputs s) (current_step s) in
    match b with
    | SpawnFails msg => (Raised (OSError msg), after (fs s))
    | Never =>
        match timeout with
        | Some _ => (Raised TimeoutExpired, after fs')
        | None => (Hang, after fs')
        end
    | Exits secs code err =>
        if outlives timeout secs then (Raised TimeoutExpired, after fs')
        else if (code =? 0)%Z then (Ok tt, after fs')
        else (Raised (CalledProcessError code err), after fs')
    end.

(** [try: m  except ...], with the handler chosen by the [except]
    clauses: [None] where no clause matches the exception. *)
Definition try_catch {A} (m : M A) (h : exn -> option (M A)) : M A :=
  fun s =>
    match m s with
    | (Raised e, s') =>
        match h e with
        | Some k => k s'
        | None => (Raised e, s')
        end
    | r => r
    end.

(** [except Exception as e: h e] *)
Definition except_Exception {A} (h : exn -> M A) : exn -> option (M A) :=
  fun e => if is_Exception e then Some (h e) else None.

(** A bare [except: h] *)
Definition except_all {A} (h : M A) : exn -> option (M A) :=
  fun _ => Some h.

Definition print (s : string) : M unit := emit (EvPrint s).

(** The line feed of the source's ["\n"]. *)
Definition nl : string := String (ascii_of_nat 10) "".

(** [enumerate(xs, 1)] *)
Definition enumerate1 {A} (xs : list A) : list (nat * A) :=
  combine (seq 1 (List.length xs)) xs.

(** The three candidate invocations of gdal_fillnodata, in the order
    both variants list them. *)
Definition opciones : list (list string) :=
  [ ["python"; "-m"; "osgeo_utils.gdal_fillnodata"];
    ["gdal_fillnodata"];
    ["gdal_fillnodata.py"] ].

(** The detection loop of both variants:
    [for cmd in opciones: try: subprocess.run(cmd + ["--help"], check=True,
    capture_output=True, timeout=5); return cmd  except: continue]
    and [return None] after the loop. *)
Fixpoint probe (env : Env) (candidates : list (list string)) : M (option (list string)) :=
  match candidates with
  | [] => ret None
  | cmd :: rest =>
      found <- try_catch
                 (subprocess_run env (cmd ++ ["--help"])%list (Some 5%Z) ;; ret true)
                 (except_all (ret false)) ;;
      if found then ret (Some cmd) else probe env rest
  end.

(* ===================================================================== *)
(** * src/DSM.py: the standalone script                                   *)
(* ===================================================================== *)

Module Standalone.

Definition INPUT_FOLDER : Path := ["C:"; "Users"; "lucas"; "Downloads"; "toledo3"].
Definition OUTPUT_FOLDER : Path := INPUT_FOLDER // "resultados".
Definition NODATA_FOLDER : Path := OUTPUT_FOLDER // "nodata_rasters".
Definition TEMP_FOLDER : Path := INPUT_FOLDER // "temp".

Definition RESOLUTION : Q := (1 # 2)%Q.
Definition FILL_DISTANCE : Z := 75%Z.

(** [laz_files = list(INPUT_FOLDER.glob("*.laz"))] *)
Definition laz_files (files : FS) : list Path := glob files INPUT_FOLDER ".laz".

(** [run_command]: no timeout is passed to [subprocess.run], and only
    [CalledProcessError] is caught. *)
Definition run_command (env : Env) (cmd : list string) (description : string) : M bool :=
  try_catch
    (subprocess_run env cmd None ;; ret true)
    (fun e =>
       match e with
       | CalledProcessError _ stderr =>
           Some (print ("    ❌ Error en " ++ description) ;;
                 (if Py.truthy stderr then print ("    " ++ Py.strip stderr) else ret tt) ;;
                 ret false)
       | _ => None
       end).

Definition create_pipeline_json (input_file output_file : Path) (classification : Z) : json :=
  JDict [("pipeline",
          JList [ JStr (str input_file);
                  JDict [("type", JStr "filters.range");
                         ("limits", JStr ("Classification[" ++ Py.str_int classification
                                          ++ ":" ++ Py.str_int classification ++ "]"))];
                  JStr (str output_file) ])].

Definition create_merge_pipeline_json (input_files : list Path) (output_file : Path) : json :=
  JDict [("pipeline",
          JList (map (fun f => JStr (str f)) input_files
                 ++ [ JDict [("type", JStr "filters.merge")];
                      JStr (str output_file) ])%list)].

Definition create_raster_pipeline_json (input_file output_file : Path) (resolution : Q) : json :=
  JDict [("pipeline",
          JList [ JStr (str input_file);
                  JDict [("type", JStr "writers.gdal");
                         ("filename", JStr (str output_file));
                         ("resolution", JFloat resolution);
                         ("output_type", JStr "max");
                         ("gdalopts", JStr "COMPRESS=DEFLATE,TILED=YES")] ])].

Definition run_pdal_pipeline (env : Env) (pipeline : json) (pipeline_file : Path)
    (description : string) : M bool :=
  write_json env pipeline_file pipeline ;;
  run_command env ["pdal"; "pipeline"; str pipeline_file] description.

(** The derived paths of one work item. *)
Definition output_suelo (base_name : string) : Path := OUTPUT_FOLDER // (base_name ++ "_suelo.las").
Definition output_edificios (base_name : string) : Path := OUTPUT_FOLDER // (base_name ++ "_edificios.las").
Definition output_merged (base_name : string) : Path := OUTPUT_FOLDER // (base_name ++ "_merged.las").
Definition raster_output (base_name : string) : Path := OUTPUT_FOLDER // (base_name ++ "_raster.tif").
Definition pipeline_suelo (base_name : string) : Path := TEMP_FOLDER // ("pipeline_suelo_" ++ base_name ++ ".json").
Definition pipeline_edificios (base_name : string) : Path := TEMP_FOLDER // ("pipeline_edificios_" ++ base_name ++ ".json").
Definition pipeline_merge (base_name : string) : Path := TEMP_FOLDER // ("pipeline_merge_" ++ base_name ++ ".json").
Definition pipeline_raster (base_name : string) : Path := TEMP_FOLDER // ("pipeline_raster_" ++ base_name ++ ".json").

(** The body of the processing loop for one file. *)
Definition process_item (env : Env) (total : nat) (i : nat) (laz_file : Path) : M unit :=
  print (Py.repeat_str "=" 70) ;;
  print ("🔄 [" ++ Py.str_nat i ++ "/" ++ Py.str_nat total ++ "] Procesando: " ++ name laz_file) ;;
  print (Py.repeat_str "=" 70) ;;
  let base_name := stem laz_file in
  try_catch
    ( print "  🌍 Filtrando puntos de suelo (Clase 2)..." ;;
      ok <- run_pdal_pipeline env
              (create_pipeline_json laz_file (output_suelo base_name) 2)
              (pipeline_suelo base_name) "filtrado de suelo" ;;
      if negb ok then ret tt else
      print "  🏢 Filtrando puntos de edificios (Clase 6)..." ;;
      ok <- run_pdal_pipeline env
              (create_pipeline_json laz_file (output_edificios base_name) 6)
              (pipeline_edificios base_name) "filtrado de edificios" ;;
      if negb ok then ret tt else
      print "  🔗 Fusionando suelo + edificios..." ;;
      ok <- run_pdal_pipeline env
              (create_merge_pipeline_json
                 [output_suelo base_name; output_edificios base_name]
                 (output_merged base_name))
              (pipeline_merge base_name) "fusión" ;;
      if negb ok then ret tt else
      print "  📊 Generando raster DSM..." ;;
      ok <- run_pdal_pipeline env
              (create_raster_pipeline_json (output_merged base_name)
                 (raster_output base_name) RESOLUTION)
              (pipeline_raster base_name) "generación de raster" ;;
      if negb ok then ret tt else
      append_raster_output (raster_output base_name) ;;
      print ("✅ Completado: " ++ name laz_file ++ nl) )
    (except_Exception
       (fun e => print ("❌ Error procesando " ++ name laz_file ++ ": " ++ str_exn e ++ nl))).

(** [for i, laz_file in enumerate(laz_files, 1): ...] *)
Definition process_items (env : Env) (total : nat) (items : list (nat * Path)) : M unit :=
  for_ items (fun it => process_item env total (fst it) (snd it) ;; ret Next).

Definition get_fillnodata_command (env : Env) : M (option (list string)) :=
  probe env opciones.

(** The body of the fill loop for one raster. *)
Definition fill_one (env : Env) (fillnodata_cmd : list string) (total : nat)
    (i : nat) (raster_file : Path) : M unit :=
  print ("🔄 [" ++ Py.str_nat i ++ "/" ++ Py.str_nat total ++ "] Rellenando: " ++ name raster_file) ;;
  let output_nodata := NODATA_FOLDER // (stem raster_file ++ "_nodata.tif") in
  let cmd_fillnodata :=
    (fillnodata_cmd ++ ["-md"; Py.str_int FILL_DISTANCE; "-si"; "0";
                        str raster_file; str output_nodata])%list in
  ok <- run_command env cmd_fillnodata "relleno de NoData" ;;
  if ok then print ("✅ Completado: " ++ name output_nodata ++ nl)
  else print ("⚠️  No se pudo rellenar " ++ name raster_file ++ nl).

(** [for i, raster_file in enumerate(raster_outputs, 1): ...] *)
Definition fill_loop (env : Env) (fillnodata_cmd : list string) (total : nat)
    (items : list (nat * Path)) : M unit :=
  for_ items (fun it => fill_one env fillnodata_cmd total (fst it) (snd it) ;; ret Next).

(** [if raster_outputs: ...]: detection, then one fill per raster. *)
Definition fill_stage (env : Env) : M unit :=
  rasters <- get_raster_outputs ;;
  match rasters with
  | [] => ret tt
  | _ :: _ =>
      print (nl ++ Py.repeat_str "=" 70) ;;
      print "🔧 Iniciando relleno de datos faltantes (fillnodata)" ;;
      print (Py.repeat_str "=" 70 ++ nl) ;;
      fillnodata_cmd <- get_fillnodata_command env ;;
      match fillnodata_cmd with
      | None =>
          print "❌ No se pudo encontrar gdal_fillnodata en el sistema" ;;
          print "   Instala GDAL Python utilities: pip install gdal"
      | Some cmd =>
          print ("✓ Usando comando: " ++ Py.join " " cmd ++ nl) ;;
          fill_loop env cmd (List.length rasters) (enumerate1 rasters)
      end
  end.

(** [for temp_file in TEMP_FOLDER.glob("*.json"): temp_file.unlink()]
    ([glob] lists the folder before it yields its first entry). *)
Definition unlink_all (env : Env) (temp_files : list Path) : M unit :=
  for_ temp_files (fun temp_file => unlink env temp_file ;; ret Next).

Definition cleanup_temp (env : Env) : M unit :=
  print "🧹 Limpiando archivos temporales..." ;;
  files <- get_fs ;;
  unlink_all env (glob files TEMP_FOLDER ".json").

(** The script, from the listing of the input folder to the last
    [print].  (The three [mkdir] calls before it leave no trace here:
    folders are implicit in the file system.) *)
Definition main (env : Env) : M unit :=
  files <- get_fs ;;
  let found := laz_files files in
  print ("📦 Encontrados " ++ Py.str_nat (List.length found) ++ " archivos LAZ para procesar" ++ nl) ;;
  match found with
  | [] =>
      print "⚠️  No se encontraron archivos .laz en la carpeta de entrada" ;;
      raise SystemExit
  | _ :: _ =>
      reset_raster_outputs ;;
      process_items env (List.length found) (enumerate1 found) ;;
      fill_stage env ;;
      cleanup_temp env ;;
      print (Py.repeat_str "=" 70) ;;
      print "🎉 ¡Proceso finalizado exitosamente!" ;;
      print ("📁 Resultados en: " ++ str OUTPUT_FOLDER) ;;
      print ("📁 Rasters rellenados en: " ++ str NODATA_FOLDER) ;;
      produced <- get_raster_outputs ;;
      print ("📊 Archivos procesados: " ++ Py.str_nat (List.length produced) ++ "/"
             ++ Py.str_nat (List.length found)) ;;
      print (Py.repeat_str "=" 70)
  end.

End Standalone.

(* ===================================================================== *)
(** * src/DSM-QGIS.py: the QGIS processing algorithm                      *)
(* ===================================================================== *)

Module QGIS.

(** The parameters [processAlgorithm] reads. *)
Record params : Type := mkParams {
  input_folder : Path;
  output_folder : Path;
  resolution : Q;
  fill_distance : Z;
  cleanup : bool
}.

(** The dictionary [processAlgorithm] returns. *)
Record result : Type := mkResult {
  OUTPUT_FOLDER : string;
  PROCESSED_COUNT : nat;
  TOTAL_COUNT : nat
}.

Definition nodata_folder (P : params) : Path := output_folder P // "nodata_raster_final".
Definition temp_folder (P : params) : Path := output_folder P // "temp".

Definition pushInfo (s : string) : M unit := emit (EvInfo s).
Definition reportError (s : string) : M unit := emit (EvError s).

(** [feedback.setCurrentStep(current_step)] *)
Definition setCurrentStep : M unit :=
  n <- get_current_step ;; emit (EvStep n).

(** [current_step += 1] *)
Definition incr_step : M unit :=
  n <- get_current_step ;; set_current_step (n + 1).

(** [feedback.isCanceled()] *)
Definition isCanceled (env : Env) : M bool :=
  fun s =>
    let c := canceled env (clock s) in
    (Ok c, mkState (fs s) (clock s) (log s ++ [EvPoll c]) (raster_outputs s) (current_step s)).

(** [laz_files = list(input_folder.glob("*.laz")) + list(input_folder.glob("*.las"))] *)
Definition laz_files (files : FS) (P : params) : list Path :=
  (glob files (input_folder P) ".laz" ++ glob files (input_folder P) ".las")%list.

Definition _create_filter_pipeline (input_file output_file : Path) (classification : Z) : json :=
  JDict [("pipeline",
          JList [ JStr (str input_file);
                  JDict [("type", JStr "filters.range");
                         ("limits", JStr ("Classification[" ++ Py.str_int classification
                                          ++ ":" ++ Py.str_int classification ++ "]"))];
                  JStr (str output_file) ])].

Definition _create_merge_pipeline (input_files : list Path) (output_file : Path) : json :=
  JDict [("pipeline",
          JList (map (fun f => JStr (str f)) input_files
                 ++ [ JDict [("type", JStr "filters.merge")];
                      JStr (str output_file) ])%list)].

Definition _create_raster_pipeline (input_file output_file : Path) (res : Q) : json :=
  JDict [("pipeline",
          JList [ JStr (str input_file);
                  JDict [("type", JStr "writers.gdal");
                         ("filename", JStr (str output_file));
                         ("resolution", JFloat res);
                         ("output_type", JStr "max");
                         ("gdalopts", JStr "COMPRESS=DEFLATE,TILED=YES")] ])].

(** [_run_command]: [timeout=300]; [CalledProcessError] and
    [TimeoutExpired] are caught and reported, nothing else is.  (The
    [startupinfo] that hides the console window on Windows changes
    nothing here.) *)
Definition _run_command (env : Env) (cmd : list string) : M bool :=
  try_catch
    (subprocess_run env cmd (Some 300%Z) ;; ret true)
    (fun e =>
       match e with
       | CalledProcessError _ stderr =>
           Some (reportError ("Error: " ++ (if Py.truthy stderr then Py.strip stderr
                                            else "Sin detalles")) ;;
                 ret false)
       | TimeoutExpired =>
           Some (reportError "Timeout: comando excedió 5 minutos" ;; ret false)
       | _ => None
       end).

Definition _run_pdal_pipeline (env : Env) (pipeline : json) (pipeline_file : Path) : M bool :=
  write_json env pipeline_file pipeline ;;
  _run_command env ["pdal"; "pipeline"; str pipeline_file].

Definition _detect_fillnodata (env : Env) : M (option (list string)) :=
  probe env opciones.

(** The derived paths of one work item. *)
Definition output_suelo (P : params) (base_name : string) : Path :=
  output_folder P // (base_name ++ "_suelo.las").
Definition output_edificios (P : params) (base_name : string) : Path :=
  output_folder P // (base_name ++ "_edificios.las").
Definition output_merged (P : params) (base_name : string) : Path :=
  output_folder P // (base_name ++ "_merged.las").
Definition raster_output (P : params) (base_name : string) : Path :=
  output_folder P // (base_name ++ "_raster.tif").
Definition pipeline_suelo (P : params) (base_name : string) : Path :=
  temp_folder P // ("pipeline_suelo_" ++ base_name ++ ".json").
Definition pipeline_edificios (P : params) (base_name : string) : Path :=
  temp_folder P // ("pipeline_edificios_" ++ base_name ++ ".json").
Definition pipeline_merge (P : params) (base_name : string) : Path :=
  temp_folder P // ("pipeline_merge_" ++ base_name ++ ".json").
Definition pipeline_raster (P : params) (base_name : string) : Path :=
  temp_folder P // ("pipeline_raster_" ++ base_name ++ ".json").

(** [for f in paths: if f.exists(): f.unlink()] *)
Definition unlink_existing (env : Env) (paths : list Path) : M unit :=
  for_ paths (fun f =>
    e <- path_exists f ;;
    (if e then unlink env f else ret tt) ;;
    ret Next).

(** The end of the [try] block, reached when the four stages have
    succeeded: step 5 (intermediate files, if requested) and the
    deletion of the pipeline files of this item. *)
Definition item_cleanup (env : Env) (P : params) (base_name : string)
    (pipeline_files : list Path) : M unit :=
  setCurrentStep ;;
  (if cleanup P then
     unlink_existing env [output_suelo P base_name; output_edificios P base_name;
                          output_merged P base_name] ;;
     pushInfo "Archivos intermedios eliminados"
   else ret tt) ;;
  incr_step ;;
  unlink_existing env pipeline_files.

(** One iteration of the loop after the cancellation check: the
    [try] block with its [except Exception]. *)
Definition process_item (env : Env) (P : params) (laz_file : Path) : M unit :=
  let base_name := stem laz_file in
  pushInfo (nl ++ Py.repeat_str "=" 50 ++ nl ++ "Procesando: " ++ name laz_file ++ nl
            ++ Py.repeat_str "=" 50) ;;
  let pipeline_files : list Path := [] in
  try_catch
    ( (* 1. Filtrar suelo *)
      setCurrentStep ;;
      pushInfo "Filtrando suelo (clase 2)..." ;;
      let pipeline := _create_filter_pipeline laz_file (output_suelo P base_name) 2 in
      let pipeline_file := pipeline_suelo P base_name in
      let pipeline_files := (pipeline_files ++ [pipeline_file])%list in
      ok <- _run_pdal_pipeline env pipeline pipeline_file ;;
      if negb ok then ret tt else
      incr_step ;;
      (* 2. Filtrar edificios *)
      setCurrentStep ;;
      pushInfo "Filtrando edificios (clase 6)..." ;;
      let pipeline := _create_filter_pipeline laz_file (output_edificios P base_name) 6 in
      let pipeline_file := pipeline_edificios P base_name in
      let pipeline_files := (pipeline_files ++ [pipeline_file])%list in
      ok <- _run_pdal_pipeline env pipeline pipeline_file ;;
      if negb ok then ret tt else
      incr_step ;;
      (* 3. Fusionar *)
      setCurrentStep ;;
      pushInfo "Fusionando clasificaciones..." ;;
      let pipeline := _create_merge_pipeline
                        [output_suelo P base_name; output_edificios P base_name]
                        (output_merged P base_name) in
      let pipeline_file := pipeline_merge P base_name in
      let pipeline_files := (pipeline_files ++ [pipeline_file])%list in
      ok <- _run_pdal_pipeline env pipeline pipeline_file ;;
      if negb ok then ret tt else
      incr_step ;;
      (* 4. Generar raster *)
      setCurrentStep ;;
      pushInfo "Generando raster DSM..." ;;
      let pipeline := _create_raster_pipeline (output_merged P base_name)
                        (raster_output P base_name) (resolution P) in
      let pipeline_file := pipeline_raster P base_name in
      let pipeline_files := (pipeline_files ++ [pipeline_file])%list in
      ok <- _run_pdal_pipeline env pipeline pipeline_file ;;
      if negb ok then ret tt else
      incr_step ;;
      append_raster_output (raster_output P base_name) ;;
      (* 5. Limpiar intermedios si se solicitó; limpiar pipelines JSON *)
      item_cleanup env P base_name pipeline_files )
    (except_Exception
       (fun e =>
          reportError ("Error procesando " ++ name laz_file ++ ": " ++ str_exn e) ;;
          n <- get_current_step ;;
          set_current_step (n + (5 - n mod 5)))).

(** [for laz_file in laz_files: if feedback.isCanceled(): break ...] *)
Definition process_items (env : Env) (P : params) (items : list Path) : M unit :=
  for_ items (fun laz_file =>
    c <- isCanceled env ;;
    if c then ret Break else
    process_item env P laz_file ;; ret Next).

(** The body of the fill loop for one raster, after the cancellation
    check. *)
Definition fill_one (env : Env) (P : params) (fillnodata_cmd : list string)
    (raster_file : Path) : M unit :=
  let output_nodata := nodata_folder P // (stem raster_file ++ "_filled.tif") in
  let cmd := (fillnodata_cmd ++ ["-md"; Py.str_int (fill_distance P); "-si"; "0";
                                 str raster_file; str output_nodata])%list in
  ok <- _run_command env cmd ;;
  if ok then pushInfo ("✓ Rellenado: " ++ name output_nodata) else ret tt.

(** [for raster_file in raster_outputs: if feedback.isCanceled(): break ...] *)
Definition fill_loop (env : Env) (P : params) (fillnodata_cmd : list string)
    (rasters : list Path) : M unit :=
  for_ rasters (fun raster_file =>
    c <- isCanceled env ;;
    if c then ret Break else
    fill_one env P fillnodata_cmd raster_file ;; ret Next).

Definition fill_stage (env : Env) (P : params) : M unit :=
  rasters <- get_raster_outputs ;;
  match rasters with
  | [] => ret tt
  | _ :: _ =>
      pushInfo (nl ++ Py.repeat_str "=" 50) ;;
      pushInfo "Iniciando relleno de NoData" ;;
      pushInfo (Py.repeat_str "=" 50) ;;
      fillnodata_cmd <- _detect_fillnodata env ;;
      match fillnodata_cmd with
      | None => reportError "gdal_fillnodata no encontrado. Instala GDAL Python utilities."
      | Some cmd =>
          pushInfo ("Usando: " ++ Py.join " " cmd) ;;
          fill_loop env P cmd rasters
      end
  end.

(** [processAlgorithm].  The two [mkdir(parents=True, exist_ok=True)]
    calls leave no trace here: folders are implicit in the file system. *)
Definition processAlgorithm (env : Env) (P : params) : M result :=
  files <- get_fs ;;
  let found := laz_files files P in
  match found with
  | [] => raise (PlainException "No se encontraron archivos LAZ/LAS en la carpeta")
  | _ :: _ =>
      reset_raster_outputs ;;
      set_current_step 0 ;;
      process_items env P found ;;
      setCurrentStep ;;
      fill_stage env P ;;
      produced <- get_raster_outputs ;;
      pushInfo (nl ++ "Proceso completado: " ++ Py.str_nat (List.length produced) ++ "/"
                ++ Py.str_nat (List.length found) ++ " archivos") ;;
      ret (mkResult (str (output_folder P)) (List.length produced) (List.length found))
  end.

End QGIS.

(* ===================================================================== *)
(** * Notions the statements use                                          *)
(* ===================================================================== *)

(** [subprocess.run] with this timeout returns normally on this
    behaviour: the process ends in time with exit status zero. *)
Definition run_ok (timeout : option Z) (b : behaviour) : bool :=
  match b with
  | Exits secs code _ => negb (outlives timeout secs) && (code =? 0)%Z
  | Never => false
  | SpawnFails _ => false
  end.

(** The events by which a stage shows in the log: the pipeline file is
    written, then pdal is run on it. *)
Definition is_write_or_run (e : event) : bool :=
  match e with
  | EvWrite _ _ => true
  | EvRun _ _ _ => true
  | _ => false
  end.

Definition is_run (e : event) : bool :=
  match e with
  | EvRun _ _ _ => true
  | _ => false
  end.

Definition is_poll (e : event) : bool :=
  match e with
  | EvPoll _ => true
  | _ => false
  end.

Definition stage_events (timeout : option Z) (st : Path * json) (b : behaviour) : list event :=
  [ EvWrite (fst st) (snd st);
    EvRun ["pdal"; "pipeline"; str (fst st)] timeout b ].

(** The four stages of a work item in the standalone script, each with
    its pipeline file and the description written to it. *)
Definition standalone_stages (laz_file : Path) : list (Path * json) :=
  let b := stem laz_file in
  [ (Standalone.pipeline_suelo b,
     Standalone.create_pipeline_json laz_file (Standalone.output_suelo b) 2);
    (Standalone.pipeline_edificios b,
     Standalone.create_pipeline_json laz_file (Standalone.output_edificios b) 6);
    (Standalone.pipeline_merge b,
     Standalone.create_merge_pipeline_json
       [Standalone.output_suelo b; Standalone.output_edificios b] (Standalone.output_merged b));
    (Standalone.pipeline_raster b,
     Standalone.create_raster_pipeline_json (Standalone.output_merged b)
       (Standalone.raster_output b) Standalone.RESOLUTION) ].

(** The same for the QGIS algorithm. *)
Definition qgis_stages (P : QGIS.params) (laz_file : Path) : list (Path * json) :=
  let b := stem laz_file in
  [ (QGIS.pipeline_suelo P b,
     QGIS._create_filter_pipeline laz_file (QGIS.output_suelo P b) 2);
    (QGIS.pipeline_edificios P b,
     QGIS._create_filter_pipeline laz_file (QGIS.output_edificios P b) 6);
    (QGIS.pipeline_merge P b,
     QGIS._create_merge_pipeline
       [QGIS.output_suelo P b; QGIS.output_edificios P b] (QGIS.output_merged P b));
    (QGIS.pipeline_raster P b,
     QGIS._create_raster_pipeline (QGIS.output_merged P b)
       (QGIS.raster_output P b) (QGIS.resolution P)) ].

(** A run of the stages of one item from [s] to [s'], where [bs] lists
    what the processes of the started stages did:
    - the stages are started in the order of [stages], each as a write
      of its pipeline file followed by a pdal run, and nothing else is
      written or run;
    - a stage whose run did not return normally is the last one started;
    - the raster is appended to [raster_outputs] exactly when all stages
      were started and returned normally. *)
Definition ordered_stage_run (timeout : option Z) (stages : list (Path * json))
    (raster : Path) (s s' : state) (bs : list behaviour) : Prop :=
  List.length bs <= List.length stages
  /\ (exists tr,
        log s' = (log s ++ tr)%list
        /\ filter is_write_or_run tr
           = List.concat (map (fun sb => stage_events timeout (fst sb) (snd sb)) (combine stages bs)))
  /\ (forall i b, nth_error bs i = Some b -> run_ok timeout b = false -> List.length bs = S i)
  /\ raster_outputs s'
     = (if (List.length bs =? List.length stages) && forallb (run_ok timeout) bs
        then raster_outputs s ++ [raster]
        else raster_outputs s)%list.

(** The derived paths of a work item with base name [b]: the three
    intermediate files, the raster and the four pipeline files. *)
Definition standalone_derived (b : string) : list Path :=
  [ Standalone.output_suelo b; Standalone.output_edificios b; Standalone.output_merged b;
    Standalone.raster_output b;
    Standalone.pipeline_suelo b; Standalone.pipeline_edificios b;
    Standalone.pipeline_merge b; Standalone.pipeline_raster b ].

Definition qgis_derived (P : QGIS.params) (b : string) : list Path :=
  [ QGIS.output_suelo P b; QGIS.output_edificios P b; QGIS.output_merged P b;
    QGIS.raster_output P b;
    QGIS.pipeline_suelo P b; QGIS.pipeline_edificios P b;
    QGIS.pipeline_merge P b; QGIS.pipeline_raster P b ].

(** The fill command line of each variant for a raster. *)
Definition standalone_fill_cmd (tool : list string) (raster_file : Path) : list string :=
  (tool ++ ["-md"; Py.str_int Standalone.FILL_DISTANCE; "-si"; "0"; str raster_file;
            str (Standalone.NODATA_FOLDER // (stem raster_file ++ "_nodata.tif"))])%list.

Definition qgis_fill_cmd (P : QGIS.params) (tool : list string) (raster_file : Path) : list string :=
  (tool ++ ["-md"; Py.str_int (QGIS.fill_distance P); "-si"; "0"; str raster_file;
            str (QGIS.nodata_folder P // (stem raster_file ++ "_filled.tif"))])%list.

(** [l1] is [l2] with some elements left out, order kept. *)
Inductive subseq {A} : list A -> list A -> Prop :=
| subseq_nil : subseq [] []
| subseq_skip : forall x l1 l2, subseq l1 l2 -> subseq l1 (x :: l2)
| subseq_take : forall x l1 l2, subseq l1 l2 -> subseq (x :: l1) (x :: l2).

(** Between two runs of pdal there is a cancellation check: reading the
    log from the left, [armed] says a pdal run was seen with no check
    after it. *)
Fixpoint polls_between_pdal_runs (armed : bool) (tr : list event) : bool :=
  match tr with
  | [] => true
  | EvPoll _ :: rest => polls_between_pdal_runs false rest
  | EvRun ("pdal" :: _) _ _ :: rest =>
      if armed then false else polls_between_pdal_runs true rest
  | _ :: rest => polls_between_pdal_runs armed rest
  end.

(** [s] with the events [evs] added to its log. *)
Definition add_events (s : state) (evs : list event) : state :=
  mkState (fs s) (clock s) (log s ++ evs) (raster_outputs s) (current_step s).

(** The state a spawned process leaves. *)
Definition after_run (s : state) (cmd : list string) (timeout : option Z)
    (b : behaviour) (fs' : FS) : state :=
  mkState (match b with SpawnFails _ => fs s | _ => fs' end) (S (clock s))
          (log s ++ [EvRun cmd timeout b]) (raster_outputs s) (current_step s).

(** What [subprocess.run] gives its caller. *)
Definition run_result (timeout : option Z) (b : behaviour) : res unit :=
  match b with
  | SpawnFails msg => Raised (OSError msg)
  | Never => match timeout with Some _ => Raised TimeoutExpired | None => Hang end
  | Exits secs code err =>
      if outlives timeout secs then Raised TimeoutExpired
      else if (code =? 0)%Z then Ok tt
      else Raised (CalledProcessError code err)
  end.

(** The probes of the candidates [cands], with what each process did. *)
Definition probes (cands : list (list string)) (bs : list behaviour) : list event :=
  map (fun cb => EvRun (fst cb ++ ["--help"])%list (Some 5%Z) (snd cb)) (combine cands bs).

Definition probe_failed (b : behaviour) : bool := negb (run_ok (Some 5%Z) b).

(** The events that act on the world, as opposed to messages. *)
Definition is_effect (e : event) : bool :=
  match e with
  | EvWrite _ _ | EvRun _ _ _ | EvUnlink _ | EvPoll _ => true
  | _ => false
  end.

(** No deletion fails in this environment. *)
Definition no_deletion_fails (env : Env) : Prop :=
  forall t p, io_error env t (OpUnlink p) = None.

(** All [n] stages were started and each returned normally. *)
Definition complete (timeout : option Z) (n : nat) (bs : list behaviour) : bool :=
  (List.length bs =? n) && forallb (run_ok timeout) bs.

(** Only the last started stage may have failed. *)
Fixpoint fail_last (timeout : option Z) (bs : list behaviour) : bool :=
  match bs with
  | [] => true
  | [b] => true
  | b :: rest => run_ok timeout b && fail_last timeout rest
  end.

(** The stages of an item of the QGIS algorithm as one chain: every
    stage is a segment whose rest is the chain of the later stages.  The
    [try] block of [QGIS.process_item] unfolds to such a chain. *)
Fixpoint qgis_chain (env : Env) (sts : list (string * (Path * json))) (K : M unit) : M unit :=
  match sts with
  | [] => K
  | (msg, (pf, pl)) :: rest =>
      QGIS.setCurrentStep ;;
      QGIS.pushInfo msg ;;
      ok <- QGIS._run_pdal_pipeline env pl pf ;;
      if negb ok then ret tt else QGIS.incr_step ;; qgis_chain env rest K
  end.

Definition stage_trace (timeout : option Z) (stages : list (Path * json))
    (bs : list behaviour) : list event :=
  List.concat (map (fun sb => stage_events timeout (fst sb) (snd sb)) (combine stages bs)).

Definition qgis_intermediates (P : QGIS.params) (b : string) : list Path :=
  [QGIS.output_suelo P b; QGIS.output_edificios P b; QGIS.output_merged P b].

Definition qgis_pipeline_files (P : QGIS.params) (b : string) : list Path :=
  [QGIS.pipeline_suelo P b; QGIS.pipeline_edificios P b;
   QGIS.pipeline_merge P b; QGIS.pipeline_raster P b].

(** The stages of an item with the message announcing each. *)
Definition qgis_stage_list (P : QGIS.params) (laz_file : Path) : list (string * (Path * json)) :=
  combine ["Filtrando suelo (clase 2)..."; "Filtrando edificios (clase 6)...";
           "Fusionando clasificaciones..."; "Generando raster DSM..."]
          (qgis_stages P laz_file).

(** What one iteration of the QGIS loop does between [s] and [s']: [bs]
    is what the processes of the started stages did, [ds] the files the
    program deleted, [tr] the events. *)
Definition qgis_item_run (env : Env) (P : QGIS.params) (laz_file : Path)
    (s s' : state) (bs : list behaviour) (ds : list Path) (tr : list event) : Prop :=
  log s' = (log s ++ tr)%list
  /\ filter is_effect tr
     = (stage_trace (Some 300%Z) (qgis_stages P laz_file) bs ++ map EvUnlink ds)%list
  /\ List.length bs <= 4
  /\ fail_last (Some 300%Z) bs = true
  /\ raster_outputs s'
     = (if complete (Some 300%Z) 4 bs
        then raster_outputs s ++ [QGIS.raster_output P (stem laz_file)]
        else raster_outputs s)%list
  /\ (complete (Some 300%Z) 4 bs = false -> ds = [])
  /\ incl ds ((if QGIS.cleanup P then qgis_intermediates P (stem laz_file) else [])
              ++ qgis_pipeline_files P (stem laz_file))
  /\ (complete (Some 300%Z) 4 bs = true -> no_deletion_fails env ->
      (QGIS.cleanup P = true ->
       forall q, In q (qgis_intermediates P (stem laz_file)) -> fs_exists (fs s') q = false)
      /\ (forall q, In q (qgis_pipeline_files P (stem laz_file)) -> fs_exists (fs s') q = false)).

(** The stages of an item of the standalone script as one chain. *)
Fixpoint standalone_chain (env : Env) (sts : list (string * string * (Path * json)))
    (K : M unit) : M unit :=
  match sts with
  | [] => K
  | (msg, d, (pf, pl)) :: rest =>
      print msg ;;
      ok <- Standalone.run_pdal_pipeline env pl pf d ;;
      if negb ok then ret tt else standalone_chain env rest K
  end.

Definition standalone_stage_list (laz_file : Path) : list (string * string * (Path * json)) :=
  combine [("  🌍 Filtrando puntos de suelo (Clase 2)...", "filtrado de suelo");
           ("  🏢 Filtrando puntos de edificios (Clase 6)...", "filtrado de edificios");
           ("  🔗 Fusionando suelo + edificios...", "fusión");
           ("  📊 Generando raster DSM...", "generación de raster")]
          (standalone_stages laz_file).

(** What one iteration of the standalone loop does between [s] and
    [s']. *)
Definition standalone_item_run (laz_file : Path) (s s' : state)
    (bs : list behaviour) (tr : list event) : Prop :=
  log s' = (log s ++ tr)%list
  /\ filter is_effect tr = stage_trace None (standalone_stages laz_file) bs
  /\ List.length bs <= 4
  /\ fail_last None bs = true
  /\ raster_outputs s'
     = (if complete None 4 bs
        then raster_outputs s ++ [Standalone.raster_output (stem laz_file)]
        else raster_outputs s)%list.

(** The last line but one the standalone script prints. *)
Definition standalone_summary (produced total : nat) : string :=
  "📊 Archivos procesados: " ++ Py.str_nat produced ++ "/" ++ Py.str_nat total.

(* ===================================================================== *)
(** * Environments and inputs of the examples                             *)
(* ===================================================================== *)


(** An input folder that holds "a.laz" and "a.las". *)
Definition twin_params : QGIS.params := QGIS.mkParams ["in"] ["out"] (1 # 2)%Q 75%Z true.
Definition twin_files : FS := [ (["in"; "a.laz"], Blob); (["in"; "a.las"], Blob) ].


Definition env_silent_failure : Env :=
  mkEnv (fun _ _ files => (Exits 1 1 "", files)) (fun _ _ => None) (fun _ => false).

(** The spec's scenario: the first candidate fails, the second answers,
    the third is left untried. *)
Definition env_second_tool : Env :=
  mkEnv (fun _ cmd files =>
           match cmd with
           | "gdal_fillnodata" :: _ => (Exits 1 0 "", files)
           | _ => (SpawnFails "No such file or directory", files)
           end)
        (fun _ _ => None) (fun _ => false).

(** An environment in which every process succeeds and leaves the files
    as they are, and an input folder with one file (and an intermediate
    file left by an earlier run). *)
Definition env_all_ok : Env :=
  mkEnv (fun _ _ files => (Exits 1 0 "", files)) (fun _ _ => None) (fun _ => false).

Definition one_laz : FS := [ (["in"; "a.laz"], Blob); (["out"; "a_suelo.las"], Blob) ].


(** The spec's scenario: of two files, the merge of the first fails; the
    batch reports one raster of two. *)
Definition env_first_merge_fails : Env :=
  mkEnv (fun _ cmd files =>
           match cmd with
           | ["pdal"; "pipeline"; "out/temp/pipeline_merge_a.json"] => (Exits 1 1 "boom", files)
           | _ => (Exits 1 0 "", files)
           end)
        (fun _ _ => None) (fun _ => false).

Definition two_laz : FS := [ (["in"; "a.laz"], Blob); (["in"; "b.laz"], Blob) ].

(** A deletion that fails does not stop the batch, and the raster of the
    item counts. *)
Definition env_locked_files : Env :=
  mkEnv (fun _ _ files => (Exits 1 0 "", files)) (fun _ op => match op with OpUnlink _ => Some "Permission denied" | _ => None end)
        (fun _ => false).

(** An input folder with one file, and a transient folder that holds a
    ".json" file and a text file before the run. *)
Definition with_old_json : FS :=
  [ (Standalone.INPUT_FOLDER // "a.laz", Blob);
    (Standalone.TEMP_FOLDER // "old.json", Blob);
    (Standalone.TEMP_FOLDER // "notes.txt", Blob) ].

(** An environment in which every process succeeds and the user cancels
    while the first process runs. *)
Definition env_cancel_during_first_stage : Env :=
  mkEnv (fun _ _ files => (Exits 1 0 "", files)) (fun _ _ => None) (fun t => Nat.leb 1 t).

(* ===================================================================== *)
(** * Notions of the statements about the whole of a run                  *)
(* ===================================================================== *)

(** The file a fill writes, as the fill loop of each variant names it. *)
Definition qgis_filled_path (P : QGIS.params) (raster_file : Path) : Path :=
  QGIS.nodata_folder P // (stem raster_file ++ "_filled.tif").

Definition standalone_filled_path (raster_file : Path) : Path :=
  Standalone.NODATA_FOLDER // (stem raster_file ++ "_nodata.tif").

(** An extension: not empty, and with no dot in it. *)
Definition is_extension (ext : string) : Prop :=
  ext <> "" /\ forall c, In c (Py.chars ext) -> c <> "."%char.

(** [steps = len(laz_files) * 5 + 1], the number of steps the algorithm
    announces to [QgsProcessingMultiStepFeedback]. *)
Definition qgis_steps (found : list Path) : nat := List.length found * 5 + 1.

(** What holds of the outcome of [m] run from [s]. *)
Definition wp {A} (m : M A) (Post : res A -> state -> Prop) (s : state) : Prop :=
  Post (fst (m s)) (snd (m s)).

(** From a state that satisfies [Pre], the outcome of [m] satisfies
    [Post]. *)
Definition hoare {A} (Pre : state -> Prop) (m : M A) (Post : res A -> state -> Prop) : Prop :=
  forall s, Pre s -> wp m Post s.

(** The invariants of a run: every event logged so far satisfies [Q],
    every raster produced so far satisfies [R], and the step counter
    satisfies [C]. *)
Definition inv (Q : event -> Prop) (R : Path -> Prop) (C : nat -> Prop) (s : state) : Prop :=
  Forall Q (log s) /\ Forall R (raster_outputs s) /\ C (current_step s).

(** [m] keeps the invariant, however it ends. *)
Definition keeps {A} (Q : event -> Prop) (R : Path -> Prop) (C : nat -> Prop) (m : M A) : Prop :=
  hoare (inv Q R C) m (fun _ s' => inv Q R C s').

(** The pdal run of a stage of the work item [laz_file]. *)
Definition is_stage_run (stages : list (Path * json)) (cmd : list string) : Prop :=
  exists st, In st stages /\ cmd = ["pdal"; "pipeline"; str (fst st)].

(** The probe of a candidate. *)
Definition is_probe (cmd : list string) : Prop :=
  exists tool, In tool opciones /\ cmd = (tool ++ ["--help"])%list.

(** The files the QGIS algorithm may delete for a work item. *)
Definition qgis_deletable (P : QGIS.params) (laz_file : Path) : list Path :=
  ((if QGIS.cleanup P then qgis_intermediates P (stem laz_file) else [])
   ++ qgis_pipeline_files P (stem laz_file))%list.

(** What the QGIS algorithm may do to the world in a run that found the
    work items [found]:
    - write the pipeline file of a stage of a work item, with the
      description of that stage;
    - run pdal on such a file, with a timeout of 300 seconds; probe a
      candidate tool, with a timeout of 5 seconds; run a fill on the
      raster of a work item, with a timeout of 300 seconds;
    - delete a pipeline file of a work item, or, if the user asked for
      it, one of its intermediate files;
    - ask whether the user cancelled, and tell its progress.
    It prints nothing. *)
Definition qgis_allowed (P : QGIS.params) (found : list Path) (e : event) : Prop :=
  match e with
  | EvWrite p j => exists laz, In laz found /\ In (p, j) (qgis_stages P laz)
  | EvRun cmd t b =>
      (t = Some 300%Z /\ exists laz, In laz found /\ is_stage_run (qgis_stages P laz) cmd)
      \/ (t = Some 5%Z /\ is_probe cmd)
      \/ (t = Some 300%Z
          /\ exists tool laz, In tool opciones /\ In laz found
                              /\ cmd = qgis_fill_cmd P tool (QGIS.raster_output P (stem laz)))
  | EvUnlink p => exists laz, In laz found /\ In p (qgis_deletable P laz)
  | EvPrint _ => False
  | EvPoll _ | EvStep _ | EvInfo _ | EvError _ => True
  end.

(** The same for the standalone script: no process but a probe has a
    timeout, and the only files deleted lie directly in the transient
    folder and have a name that ends in ".json". *)
Definition standalone_allowed (found : list Path) (e : event) : Prop :=
  match e with
  | EvWrite p j => exists laz, In laz found /\ In (p, j) (standalone_stages laz)
  | EvRun cmd t b =>
      (t = None /\ exists laz, In laz found /\ is_stage_run (standalone_stages laz) cmd)
      \/ (t = Some 5%Z /\ is_probe cmd)
      \/ (t = None
          /\ exists tool laz, In tool opciones /\ In laz found
                              /\ cmd = standalone_fill_cmd tool (Standalone.raster_output (stem laz)))
  | EvUnlink p => exists pre, p = Standalone.TEMP_FOLDER // (pre ++ ".json")
  | EvPrint _ => True
  | EvPoll _ | EvStep _ | EvInfo _ | EvError _ => False
  end.

(** A raster is the raster of one of the work items [found]. *)
Definition qgis_raster_of (P : QGIS.params) (found : list Path) (raster_file : Path) : Prop :=
  exists laz, In laz found /\ raster_file = QGIS.raster_output P (stem laz).

Definition standalone_raster_of (found : list Path) (raster_file : Path) : Prop :=
  exists laz, In laz found /\ raster_file = Standalone.raster_output (stem laz).

(** The number of processes started. *)
Definition runs (tr : list event) : nat := List.length (filter is_run tr).

(** What the body of the loop may do to the world for one work item:
    the QGIS algorithm writes and runs its stages and deletes its
    files; the standalone script writes and runs its stages and deletes
    nothing. *)
Definition qgis_item_events (P : QGIS.params) (laz_file : Path) (e : event) : Prop :=
  match e with
  | EvWrite p j => In (p, j) (qgis_stages P laz_file)
  | EvRun cmd t b => t = Some 300%Z /\ is_stage_run (qgis_stages P laz_file) cmd
  | EvUnlink p => In p (qgis_deletable P laz_file)
  | EvStep _ | EvInfo _ | EvError _ => True
  | EvPoll _ | EvPrint _ => False
  end.

Definition standalone_item_events (laz_file : Path) (e : event) : Prop :=
  match e with
  | EvWrite p j => In (p, j) (standalone_stages laz_file)
  | EvRun cmd t b => t = None /\ is_stage_run (standalone_stages laz_file) cmd
  | EvPrint _ => True
  | EvUnlink _ | EvPoll _ | EvStep _ | EvInfo _ | EvError _ => False
  end.

(* ===================================================================== *)
(** * Strings, paths and the file system                                  *)
(* ===================================================================== *)

Section StringFacts.

Lemma chars_append (a b : string) : Py.chars (a ++ b) = (Py.chars a ++ Py.chars b)%list.
Proof.
  unfold Py.chars. induction a as [|c a IH]; simpl; [reflexivity|].
  now rewrite IH.
Qed.

Lemma chars_inj (a b : string) : Py.chars a = Py.chars b -> a = b.
Proof.
  unfold Py.chars. intros H.
  rewrite <- (string_of_list_ascii_of_string a), <- (string_of_list_ascii_of_string b).
  now rewrite H.
Qed.

Lemma of_chars_chars (s : string) : Py.of_chars (Py.chars s) = s.
Proof. apply string_of_list_ascii_of_string. Qed.

Lemma chars_of_chars (l : list ascii) : Py.chars (Py.of_chars l) = l.
Proof. apply list_ascii_of_string_of_list_ascii. Qed.

(** A common suffix cancels. *)
Lemma append_inj_l (a b t : string) : a ++ t = b ++ t -> a = b.
Proof.
  intros H. apply chars_inj.
  apply (f_equal Py.chars) in H. rewrite !chars_append in H.
  now apply app_inv_tail in H.
Qed.

(** A common prefix cancels. *)
Lemma append_inj_r (t a b : string) : t ++ a = t ++ b -> a = b.
Proof.
  induction t as [|c t IH]; simpl; intros H; [assumption|].
  injection H as H. now apply IH.
Qed.

Lemma list_prefix_spec (p l : list ascii) :
  Py.list_prefix p l = true <-> exists rest, l = (p ++ rest)%list.
Proof.
  revert l. induction p as [|a p IH]; intros l; simpl.
  - split; [intros _; now exists l | reflexivity].
  - destruct l as [|b l].
    + split; [discriminate | intros [rest H]; discriminate].
    + rewrite andb_true_iff, Ascii.eqb_eq, IH. split.
      * intros [-> [rest ->]]. now exists rest.
      * intros [rest H]. injection H as -> ->. split; [reflexivity | now exists rest].
Qed.

(** [endswith] is what it says: the string is some prefix followed by
    the suffix. *)
Lemma endswith_spec (s suf : string) :
  Py.endswith s suf = true <-> exists pre, s = pre ++ suf.
Proof.
  unfold Py.endswith. rewrite list_prefix_spec. split.
  - intros [rest H]. exists (Py.of_chars (rev rest)).
    apply chars_inj. rewrite chars_append, chars_of_chars.
    apply (f_equal (@rev ascii)) in H.
    rewrite rev_involutive, rev_app_distr, rev_involutive in H. exact H.
  - intros [pre ->]. exists (rev (Py.chars pre)).
    now rewrite chars_append, rev_app_distr.
Qed.

End StringFacts.

Section PathFacts.

Lemma path_eqb_eq (p q : Path) : path_eqb p q = true <-> p = q.
Proof.
  unfold path_eqb. destruct (list_eq_dec string_dec p q); split; congruence.
Qed.

Lemma path_eqb_refl (p : Path) : path_eqb p p = true.
Proof. now apply path_eqb_eq. Qed.

Lemma path_eqb_neq (p q : Path) : p <> q -> path_eqb p q = false.
Proof.
  intros H. destruct (path_eqb p q) eqn:E; [|reflexivity].
  apply path_eqb_eq in E. contradiction.
Qed.

Lemma path_join_inj (d d' : Path) (n n' : string) :
  d // n = d' // n' -> d = d' /\ n = n'.
Proof. unfold path_join. apply app_inj_tail. Qed.

Lemma name_join (d : Path) (n : string) : name (d // n) = n.
Proof. unfold name, path_join. apply last_last. Qed.

Lemma parent_join (d : Path) (n : string) : parent (d // n) = d.
Proof. unfold parent, path_join. apply removelast_last. Qed.

Lemma path_split (p : Path) : p <> [] -> p = parent p // name p.
Proof. intros H. unfold parent, name, path_join. now apply app_removelast_last. Qed.

Lemma join_not_nil (d : Path) (n : string) : d // n <> [].
Proof. unfold path_join. destruct d; discriminate. Qed.

End PathFacts.

Section FileSystemFacts.

Lemma fs_lookup_In (fs : FS) (p : Path) (c : content) :
  fs_lookup fs p = Some c -> In (p, c) fs.
Proof.
  unfold fs_lookup. destruct (find _ fs) as [[q d]|] eqn:E; [|discriminate].
  intros H. injection H as ->. apply find_some in E. destruct E as [Hin Heq].
  apply path_eqb_eq in Heq. simpl in Heq. now subst.
Qed.

Lemma fs_exists_In (fs : FS) (p : Path) :
  fs_exists fs p = true <-> exists c, In (p, c) fs.
Proof.
  unfold fs_exists, fs_lookup. split.
  - destruct (find _ fs) as [[q d]|] eqn:E; [|discriminate].
    intros _. apply find_some in E. destruct E as [Hin Heq].
    apply path_eqb_eq in Heq. simpl in Heq. subst. now exists d.
  - intros [c Hin]. destruct (find _ fs) eqn:E; [reflexivity|].
    apply (find_none _ _ E) in Hin. simpl in Hin. now rewrite path_eqb_refl in Hin.
Qed.

Lemma fs_lookup_remove_same (fs : FS) (p : Path) : fs_lookup (fs_remove fs p) p = None.
Proof.
  unfold fs_lookup, fs_remove. destruct (find _ (filter _ fs)) as [e|] eqn:E; [|reflexivity].
  apply find_some in E. destruct E as [Hin Heq].
  apply filter_In in Hin. destruct Hin as [_ Hne]. now rewrite Heq in Hne.
Qed.

Lemma fs_lookup_remove_other (fs : FS) (p q : Path) :
  p <> q -> fs_lookup (fs_remove fs q) p = fs_lookup fs p.
Proof.
  intros Hne. unfold fs_lookup, fs_remove.
  induction fs as [|[r c] fs IH]; simpl; [reflexivity|].
  destruct (path_eqb r q) eqn:Erq; simpl.
  - apply path_eqb_eq in Erq. subst r.
    rewrite (path_eqb_neq q p); [exact IH | congruence].
  - destruct (path_eqb r p); [reflexivity | exact IH].
Qed.

Lemma fs_exists_remove_same (fs : FS) (p : Path) : fs_exists (fs_remove fs p) p = false.
Proof. unfold fs_exists. now rewrite fs_lookup_remove_same. Qed.

Lemma fs_exists_remove_other (fs : FS) (p q : Path) :
  p <> q -> fs_exists (fs_remove fs q) p = fs_exists fs p.
Proof. intros H. unfold fs_exists. now rewrite fs_lookup_remove_other. Qed.

(** What [glob] returns: the files that exist directly in the folder
    and whose name ends with the suffix. *)
Lemma glob_spec (fs : FS) (folder : Path) (suf : string) (p : Path) :
  In p (glob fs folder suf)
  <-> (exists c, In (p, c) fs) /\ exists pre, p = folder // (pre ++ suf).
Proof.
  unfold glob. rewrite nodup_In, filter_In, in_map_iff. split.
  - intros [[[q c] [Hq Hin]] Hm]. simpl in Hq. subst q. split; [now exists c|].
    destruct p as [|x p']; [discriminate|].
    apply andb_true_iff in Hm. destruct Hm as [Hpar Hname].
    apply path_eqb_eq in Hpar. unfold Py.fnmatch_star in Hname.
    apply endswith_spec in Hname. destruct Hname as [pre Hname].
    exists pre. rewrite <- Hname, <- Hpar. apply path_split. discriminate.
  - intros [[c Hin] [pre ->]]. split.
    + now exists (folder // (pre ++ suf), c).
    + destruct (folder // (pre ++ suf)) eqn:E; [now apply join_not_nil in E|].
      rewrite <- E, parent_join, name_join, path_eqb_refl. simpl.
      unfold Py.fnmatch_star. apply endswith_spec. now exists pre.
Qed.

Lemma glob_NoDup (fs : FS) (folder : Path) (suf : string) : NoDup (glob fs folder suf).
Proof. unfold glob. apply NoDup_nodup. Qed.

End FileSystemFacts.

(* ===================================================================== *)
(** * Work-item discovery                                                 *)
(* ===================================================================== *)


(** A file in a sub-folder of the input folder is not discovered. *)
Lemma discovery_not_recursive (files : FS) (P : QGIS.params) (sub n : string) :
  ~ In (QGIS.input_folder P // sub // n) (QGIS.laz_files files P).
Proof.
  intros H. unfold QGIS.laz_files in H. apply in_app_iff in H.
  destruct H as [H | H]; apply glob_spec in H; destruct H as [_ [pre H]];
    apply path_join_inj in H; destruct H as [H _];
    apply (f_equal (@List.length string)) in H; unfold path_join in H;
    rewrite length_app in H; simpl in H; lia.
Qed.


(* ===================================================================== *)
(** * Derived paths                                                       *)
(* ===================================================================== *)

(** Two names built on different suffixes, or on different prefixes,
    differ: the equation is refuted from the right end, then from the
    left end. *)
Ltac refute_name_eq H :=
  first
    [ let H' := fresh in pose proof H as H'; simpl in H'; discriminate H'
    | exfalso;
      apply (f_equal (fun x => rev (Py.chars x))) in H;
      rewrite ?chars_append, ?rev_app_distr in H;
      simpl in H; discriminate H ].

Ltac same_kind_stem H :=
  repeat (apply append_inj_r in H);
  repeat (apply append_inj_l in H);
  congruence.

Lemma standalone_derived_disjoint (b1 b2 : string) (p : Path) :
  b1 <> b2 -> In p (standalone_derived b1) -> ~ In p (standalone_derived b2).
Proof.
  intros Hne H1 H2.
  unfold standalone_derived, Standalone.output_suelo, Standalone.output_edificios,
    Standalone.output_merged, Standalone.raster_output, Standalone.pipeline_suelo,
    Standalone.pipeline_edificios, Standalone.pipeline_merge, Standalone.pipeline_raster in *.
  cbn [In] in H1, H2.
  repeat (destruct H1 as [H1 | H1]); try contradiction; subst p;
    repeat (destruct H2 as [H2 | H2]); try contradiction;
    apply path_join_inj in H2; destruct H2 as [_ H2];
    first [ solve [same_kind_stem H2] | solve [refute_name_eq H2] ].
Qed.

Lemma qgis_derived_disjoint (P : QGIS.params) (b1 b2 : string) (p : Path) :
  b1 <> b2 -> In p (qgis_derived P b1) -> ~ In p (qgis_derived P b2).
Proof.
  intros Hne H1 H2.
  unfold qgis_derived, QGIS.output_suelo, QGIS.output_edificios,
    QGIS.output_merged, QGIS.raster_output, QGIS.pipeline_suelo,
    QGIS.pipeline_edificios, QGIS.pipeline_merge, QGIS.pipeline_raster in *.
  cbn [In] in H1, H2.
  repeat (destruct H1 as [H1 | H1]); try contradiction; subst p;
    repeat (destruct H2 as [H2 | H2]); try contradiction;
    apply path_join_inj in H2; destruct H2 as [_ H2];
    first [ solve [same_kind_stem H2] | solve [refute_name_eq H2] ].
Qed.

(** C9, as the code has it.  In both variants, two work items with
    different stems share none of their derived paths (intermediate
    files, raster, pipeline files). *)
Theorem derived_paths_disjoint_for_distinct_stems :
  forall (P : QGIS.params) (item1 item2 : Path) (p : Path),
    stem item1 <> stem item2 ->
    (In p (qgis_derived P (stem item1)) -> ~ In p (qgis_derived P (stem item2)))
    /\ (In p (standalone_derived (stem item1)) -> ~ In p (standalone_derived (stem item2))).
Proof.
  intros P item1 item2 p Hne. split.
  - now apply qgis_derived_disjoint.
  - now apply standalone_derived_disjoint.
Qed.

Lemma derived_paths_disjoint_witness :
  stem ["in"; "a.laz"] <> stem ["in"; "b.laz"]
  /\ (In (QGIS.output_suelo twin_params "a") (qgis_derived twin_params (stem ["in"; "a.laz"])) ->
      ~ In (QGIS.output_suelo twin_params "a") (qgis_derived twin_params (stem ["in"; "b.laz"]))).
Proof.
  assert (H : stem ["in"; "a.laz"] <> stem ["in"; "b.laz"]) by (vm_compute; discriminate).
  split; [exact H|].
  exact (proj1 (derived_paths_disjoint_for_distinct_stems twin_params
                  ["in"; "a.laz"] ["in"; "b.laz"] (QGIS.output_suelo twin_params "a") H)).
Defined.

(** C9, the claim as stated fails on the QGIS algorithm: "a.laz" and
    "a.las" are two distinct work items of one run with the same stem,
    hence the same intermediate files, raster and pipeline files. *)
Lemma twin_items_share_paths :
  QGIS.laz_files twin_files twin_params = [ ["in"; "a.laz"]; ["in"; "a.las"] ]
  /\ ["in"; "a.laz"] <> ["in"; "a.las"]
  /\ qgis_derived twin_params (stem ["in"; "a.laz"])
     = qgis_derived twin_params (stem ["in"; "a.las"]).
Proof. repeat split; vm_compute; congruence. Qed.

(* ===================================================================== *)
(** * Reasoning about programs                                            *)
(* ===================================================================== *)

Section Inversion.

Context {A B : Type}.

Lemma bind_inv (m : M A) (k : A -> M B) (s s' : state) (r : res B) :
  bind m k s = (r, s') ->
  (exists a s1, m s = (Ok a, s1) /\ k a s1 = (r, s'))
  \/ (exists e, m s = (Raised e, s') /\ r = Raised e)
  \/ (m s = (Hang, s') /\ r = Hang).
Proof.
  unfold bind. destruct (m s) as [[a | e |] s1]; intros H.
  - left. now exists a, s1.
  - right. left. injection H as <- <-. now exists e.
  - right. right. injection H as <- <-. now split.
Qed.

Lemma try_catch_inv (m : M A) (h : exn -> option (M A)) (s s' : state) (r : res A) :
  try_catch m h s = (r, s') ->
  (exists a, m s = (Ok a, s') /\ r = Ok a)
  \/ (m s = (Hang, s') /\ r = Hang)
  \/ (exists e, m s = (Raised e, s') /\ h e = None /\ r = Raised e)
  \/ (exists e s1 k, m s = (Raised e, s1) /\ h e = Some k /\ k s1 = (r, s')).
Proof.
  unfold try_catch. destruct (m s) as [[a | e |] s1]; intros H.
  - left. injection H as <- <-. now exists a.
  - destruct (h e) as [k|] eqn:E.
    + right. right. right. now exists e, s1, k.
    + right. right. left. injection H as <- <-. now exists e.
  - right. left. injection H as <- <-. now split.
Qed.

End Inversion.

Lemma ret_inv {A} (a : A) (s s' : state) (r : res A) :
  ret a s = (r, s') -> r = Ok a /\ s' = s.
Proof. unfold ret. intros H. now injection H as <- <-. Qed.

Lemma raise_inv {A} (e : exn) (s s' : state) (r : res A) :
  raise e s = (r, s') -> r = Raised e /\ s' = s.
Proof. unfold raise. intros H. now injection H as <- <-. Qed.

Lemma emit_inv (e : event) (s s' : state) (r : res unit) :
  emit e s = (r, s') -> r = Ok tt /\ s' = add_events s [e].
Proof. unfold emit, add_events. intros H. now injection H as <- <-. Qed.

Lemma subprocess_run_eq (env : Env) (cmd : list string) (timeout : option Z) (s : state) :
  subprocess_run env cmd timeout s
  = (run_result timeout (fst (exec env (clock s) cmd (fs s))),
     after_run s cmd timeout (fst (exec env (clock s) cmd (fs s)))
                             (snd (exec env (clock s) cmd (fs s)))).
Proof.
  unfold subprocess_run, run_result, after_run.
  destruct (exec env (clock s) cmd (fs s)) as [b fs']. simpl.
  destruct b as [secs code err | | msg]; try reflexivity.
  - destruct (outlives timeout secs); [reflexivity|]. now destruct (code =? 0)%Z.
  - now destruct timeout.
Qed.

(** [subprocess.run] returns normally exactly on the behaviours
    [run_ok] accepts. *)
Lemma run_result_ok (timeout : option Z) (b : behaviour) :
  run_result timeout b = Ok tt <-> run_ok timeout b = true.
Proof.
  unfold run_result, run_ok. destruct b as [secs code err | | msg].
  - destruct (outlives timeout secs); simpl; [split; discriminate|].
    destruct (code =? 0)%Z; split; congruence.
  - destruct timeout; split; discriminate.
  - split; discriminate.
Qed.

(** With a timeout, [subprocess.run] always comes back. *)
Lemma run_result_timeout_no_hang (t : Z) (b : behaviour) : run_result (Some t) b <> Hang.
Proof.
  unfold run_result. destruct b as [secs code err | | msg]; try discriminate.
  destruct (outlives (Some t) secs); [discriminate|]. destruct (code =? 0)%Z; discriminate.
Qed.


(* ===================================================================== *)
(** * The command runner                                                  *)
(* ===================================================================== *)

Lemma probe_one (env : Env) (cmd : list string) (s : state) :
  try_catch (subprocess_run env (cmd ++ ["--help"])%list (Some 5%Z) ;; ret true)
            (except_all (ret false)) s
  = (Ok (run_ok (Some 5%Z) (fst (exec env (clock s) (cmd ++ ["--help"])%list (fs s)))),
     after_run s (cmd ++ ["--help"])%list (Some 5%Z)
               (fst (exec env (clock s) (cmd ++ ["--help"])%list (fs s)))
               (snd (exec env (clock s) (cmd ++ ["--help"])%list (fs s)))).
Proof.
  unfold try_catch, bind. rewrite subprocess_run_eq.
  destruct (exec env (clock s) (cmd ++ ["--help"])%list (fs s)) as [b fs']. cbn [fst snd].
  destruct b as [secs code err | | msg]; simpl; try reflexivity.
  destruct (5 <? secs)%Z; simpl; [reflexivity|].
  destruct (code =? 0)%Z; reflexivity.
Qed.

Lemma qgis_run_command_eq (env : Env) (cmd : list string) (s : state) :
  QGIS._run_command env cmd s
  = match fst (exec env (clock s) cmd (fs s)) with
    | Exits secs code err =>
        if (300 <? secs)%Z
        then (Ok false,
              add_events (after_run s cmd (Some 300%Z) (fst (exec env (clock s) cmd (fs s)))
                                    (snd (exec env (clock s) cmd (fs s))))
                         [EvError "Timeout: comando excedió 5 minutos"])
        else if (code =? 0)%Z
        then (Ok true,
              after_run s cmd (Some 300%Z) (fst (exec env (clock s) cmd (fs s)))
                        (snd (exec env (clock s) cmd (fs s))))
        else (Ok false,
              add_events (after_run s cmd (Some 300%Z) (fst (exec env (clock s) cmd (fs s)))
                                    (snd (exec env (clock s) cmd (fs s))))
                         [EvError ("Error: " ++ (if Py.truthy err then Py.strip err
                                                 else "Sin detalles"))])
    | Never =>
        (Ok false,
         add_events (after_run s cmd (Some 300%Z) (fst (exec env (clock s) cmd (fs s)))
                               (snd (exec env (clock s) cmd (fs s))))
                    [EvError "Timeout: comando excedió 5 minutos"])
    | SpawnFails msg =>
        (Raised (OSError msg),
         after_run s cmd (Some 300%Z) (fst (exec env (clock s) cmd (fs s)))
                   (snd (exec env (clock s) cmd (fs s))))
    end.
Proof.
  unfold QGIS._run_command, try_catch, bind. rewrite subprocess_run_eq.
  destruct (exec env (clock s) cmd (fs s)) as [b fs']. cbn [fst snd].
  destruct b as [secs code err | | msg]; simpl; try reflexivity.
  destruct (300 <? secs)%Z; [reflexivity|].
  destruct (code =? 0)%Z; reflexivity.
Qed.

Lemma standalone_run_command_eq (env : Env) (cmd : list string) (description : string) (s : state) :
  Standalone.run_command env cmd description s
  = match fst (exec env (clock s) cmd (fs s)) with
    | Exits secs code err =>
        if (code =? 0)%Z
        then (Ok true,
              after_run s cmd None (fst (exec env (clock s) cmd (fs s)))
                        (snd (exec env (clock s) cmd (fs s))))
        else (Ok false,
              add_events (after_run s cmd None (fst (exec env (clock s) cmd (fs s)))
                                    (snd (exec env (clock s) cmd (fs s))))
                         (EvPrint ("    ❌ Error en " ++ description)
                          :: (if Py.truthy err then [EvPrint ("    " ++ Py.strip err)]
                              else [])))
    | Never =>
        (Hang, after_run s cmd None (fst (exec env (clock s) cmd (fs s)))
                         (snd (exec env (clock s) cmd (fs s))))
    | SpawnFails msg =>
        (Raised (OSError msg),
         after_run s cmd None (fst (exec env (clock s) cmd (fs s)))
                   (snd (exec env (clock s) cmd (fs s))))
    end.
Proof.
  unfold Standalone.run_command, try_catch, bind. rewrite subprocess_run_eq.
  destruct (exec env (clock s) cmd (fs s)) as [b fs']. cbn [fst snd].
  destruct b as [secs code err | | msg]; simpl; try reflexivity.
  destruct (code =? 0)%Z; [reflexivity|].
  unfold print, emit, ret, add_events. simpl.
  destruct (Py.truthy err); simpl; rewrite <- ?app_assoc; reflexivity.
Qed.



(* ===================================================================== *)
(** * Tool detection                                                      *)
(* ===================================================================== *)

(** What a detection over any candidate list does. *)
Lemma probe_spec (env : Env) (cands : list (list string)) :
  forall s, exists r s',
    probe env cands s = (Ok r, s')
    /\ raster_outputs s' = raster_outputs s
    /\ current_step s' = current_step s
    /\ match r with
       | Some cmd =>
           exists pre post fails b,
             cands = (pre ++ cmd :: post)%list
             /\ List.length fails = List.length pre
             /\ forallb probe_failed fails = true
             /\ run_ok (Some 5%Z) b = true
             /\ log s' = (log s ++ probes pre fails
                          ++ [EvRun (cmd ++ ["--help"]) (Some 5%Z) b])%list
       | None =>
           exists fails,
             List.length fails = List.length cands
             /\ forallb probe_failed fails = true
             /\ log s' = (log s ++ probes cands fails)%list
       end.
Proof.
  induction cands as [|c rest IH]; intros s.
  - exists None, s. simpl. repeat split; try reflexivity.
    exists []. repeat split. now rewrite app_nil_r.
  - simpl probe. unfold bind at 1. rewrite probe_one.
    destruct (exec env (clock s) (c ++ ["--help"])%list (fs s)) as [b fs'] eqn:E.
    cbn [fst snd].
    destruct (run_ok (Some 5%Z) b) eqn:Hok.
    + exists (Some c). eexists. split; [reflexivity|]. simpl. repeat split.
      exists [], rest, [], b. repeat split; try reflexivity; assumption.
    + destruct (IH (after_run s (c ++ ["--help"])%list (Some 5%Z) b fs'))
        as (r & s' & Hp & Hro & Hcs & Hr).
      exists r, s'. split; [exact Hp|]. split; [exact Hro|]. split; [exact Hcs|].
      destruct r as [cmd|].
      * destruct Hr as (pre & post & fails & b' & Hc & Hlen & Hf & Hb & Hlog).
        exists (c :: pre), post, (b :: fails), b'. repeat split.
        -- now rewrite Hc.
        -- simpl. now rewrite Hlen.
        -- simpl. unfold probe_failed at 1. now rewrite Hok.
        -- exact Hb.
        -- rewrite Hlog. simpl. now rewrite <- app_assoc.
      * destruct Hr as (fails & Hlen & Hf & Hlog).
        exists (b :: fails). repeat split.
        -- simpl. now rewrite Hlen.
        -- simpl. unfold probe_failed at 1. now rewrite Hok.
        -- rewrite Hlog. simpl. now rewrite <- app_assoc.
Qed.


Example detect_second_candidate :
  probe env_second_tool opciones (initial [])
  = (Ok (Some ["gdal_fillnodata"]),
     mkState [] 2
       [ EvRun ["python"; "-m"; "osgeo_utils.gdal_fillnodata"; "--help"] (Some 5%Z)
               (SpawnFails "No such file or directory");
         EvRun ["gdal_fillnodata"; "--help"] (Some 5%Z) (Exits 1 0 "") ] [] 0).
Proof. vm_compute. reflexivity. Qed.

(* ===================================================================== *)
(** * Deleting files                                                      *)
(* ===================================================================== *)


(** [for f in paths: if f.exists(): f.unlink()]: the files deleted are
    among [paths], every other file is as before, and the loop either
    ends with none of [paths] left or stops at a deletion that fails. *)
Lemma unlink_existing_spec (env : Env) (paths : list Path) :
  forall s r s',
    QGIS.unlink_existing env paths s = (r, s') ->
    raster_outputs s' = raster_outputs s
    /\ clock s' = clock s
    /\ exists ds,
         log s' = (log s ++ map EvUnlink ds)%list
         /\ incl ds paths
         /\ (forall q, ~ In q ds -> fs_lookup (fs s') q = fs_lookup (fs s) q)
         /\ (forall q, In q ds -> fs_exists (fs s') q = false)
         /\ ((r = Ok tt /\ forall q, In q paths -> fs_exists (fs s') q = false)
             \/ (exists msg q, r = Raised (OSError msg) /\ In q paths
                               /\ io_error env (clock s) (OpUnlink q) = Some msg)).
Proof.
  induction paths as [|f rest IH]; intros s r s' H.
  - unfold QGIS.unlink_existing in H. simpl in H. apply ret_inv in H. destruct H as [-> ->].
    repeat split. exists []. simpl. rewrite app_nil_r.
    repeat split; try easy. left. split; [reflexivity | intros q []].
  - unfold QGIS.unlink_existing in H. simpl for_ in H.
    fold (QGIS.unlink_existing env rest) in H.
    unfold bind at 1 2 3 in H. unfold path_exists at 1 in H.
    destruct (fs_exists (fs s) f) eqn:Hex.
    + unfold unlink at 1 in H. rewrite Hex in H. simpl negb in H. cbv iota in H.
      destruct (io_error env (clock s) (OpUnlink f)) as [msg0|] eqn:Hio.
      * injection H as <- <-. repeat split. exists []. simpl. rewrite app_nil_r.
        repeat split; try easy.
        right. exists msg0, f. repeat split; [now left | exact Hio].
      * unfold ret at 1 in H. cbv beta iota in H.
        apply IH in H. simpl in H. destruct H as (Hro & Hck & ds & Hlog & Hincl & Hframe & Hgone & Hend).
        split; [exact Hro|]. split; [exact Hck|]. exists (f :: ds).
        split; [rewrite Hlog; simpl; now rewrite <- app_assoc|].
        split; [intros q [<- | Hq]; [now left | right; now apply Hincl]|].
        assert (Hf : fs_exists (fs s') f = false).
        { destruct (in_dec (list_eq_dec string_dec) f ds) as [Hin | Hnin].
          - now apply Hgone.
          - unfold fs_exists. rewrite (Hframe f Hnin). now rewrite fs_lookup_remove_same. }
        split; [intros q Hq; rewrite Hframe by (intros Hin; apply Hq; now right);
                apply fs_lookup_remove_other; intros ->; apply Hq; now left|].
        split; [intros q [<- | Hq]; [exact Hf | now apply Hgone]|].
        destruct Hend as [[-> Hall] | (msg & q & -> & Hq & Hio')].
        -- left. split; [reflexivity|]. intros q [<- | Hq]; [exact Hf | now apply Hall].
        -- right. exists msg, q. repeat split; [now right | exact Hio'].
    + unfold ret at 1 2 in H. cbv beta iota in H.
      apply IH in H. destruct H as (Hro & Hck & ds & Hlog & Hincl & Hframe & Hgone & Hend).
      split; [exact Hro|]. split; [exact Hck|]. exists ds.
      split; [exact Hlog|]. split; [intros q Hq; right; now apply Hincl|].
      split; [exact Hframe|]. split; [exact Hgone|].
      assert (Hf : fs_exists (fs s') f = false).
      { destruct (in_dec (list_eq_dec string_dec) f ds) as [Hin | Hnin].
        - now apply Hgone.
        - unfold fs_exists. rewrite (Hframe f Hnin). unfold fs_exists in Hex.
          destruct (fs_lookup (fs s) f); [discriminate | reflexivity]. }
      destruct Hend as [[-> Hall] | (msg & q & -> & Hq & Hio')].
      * left. split; [reflexivity|]. intros q [<- | Hq]; [exact Hf | now apply Hall].
      * right. exists msg, q. repeat split; [now right | exact Hio'].
Qed.

Lemma setCurrentStep_inv (s s' : state) (r : res unit) :
  QGIS.setCurrentStep s = (r, s') -> r = Ok tt /\ s' = add_events s [EvStep (current_step s)].
Proof. unfold QGIS.setCurrentStep, bind, get_current_step, emit, add_events. intros H. now injection H as <- <-. Qed.

Lemma incr_step_inv (s s' : state) (r : res unit) :
  QGIS.incr_step s = (r, s') ->
  r = Ok tt /\ s' = mkState (fs s) (clock s) (log s) (raster_outputs s) (current_step s + 1).
Proof. unfold QGIS.incr_step, bind, get_current_step, set_current_step. intros H. now injection H as <- <-. Qed.

Lemma filter_effect_unlinks (ds : list Path) : filter is_effect (map EvUnlink ds) = map EvUnlink ds.
Proof. induction ds as [|d ds IH]; simpl; [reflexivity | now rewrite IH]. Qed.

(** The end of a successful item: what is deleted lies among the
    intermediate files (when requested) and the pipeline files; every
    other file is untouched; and unless a deletion fails, none of them is
    left. *)
Lemma item_cleanup_spec (env : Env) (P : QGIS.params) (b : string) (pfs : list Path) :
  forall s r s',
    QGIS.item_cleanup env P b pfs s = (r, s') ->
    raster_outputs s' = raster_outputs s
    /\ clock s' = clock s
    /\ exists ds tr,
         log s' = (log s ++ tr)%list
         /\ filter is_effect tr = map EvUnlink ds
         /\ incl ds ((if QGIS.cleanup P
                      then [QGIS.output_suelo P b; QGIS.output_edificios P b; QGIS.output_merged P b]
                      else []) ++ pfs)
         /\ (forall q, ~ In q ds -> fs_lookup (fs s') q = fs_lookup (fs s) q)
         /\ ((r = Ok tt
              /\ (QGIS.cleanup P = true ->
                  forall q, In q [QGIS.output_suelo P b; QGIS.output_edificios P b;
                                  QGIS.output_merged P b] -> fs_exists (fs s') q = false)
              /\ (forall q, In q pfs -> fs_exists (fs s') q = false))
             \/ (exists msg q, r = Raised (OSError msg)
                               /\ io_error env (clock s) (OpUnlink q) = Some msg)).
Proof.
  intros s r s' H. unfold QGIS.item_cleanup in H.
  apply bind_inv in H. destruct H as [(a & s1 & H1 & H) | [(e & H1 & _) | (H1 & _)]];
    apply setCurrentStep_inv in H1; destruct H1 as [H1 ->]; try discriminate.
  destruct (QGIS.cleanup P) eqn:Hc.
  - apply bind_inv in H. destruct H as [(a1 & s2 & H2 & H) | [(e & H2 & ->) | (H2 & ->)]].
    + (* the intermediate files are gone *)
      apply bind_inv in H2. destruct H2 as [(a2 & s3 & H3 & H4) | [(e & H3 & ?) | (H3 & ?)]];
        try discriminate.
      apply emit_inv in H4. destruct H4 as [_ ->].
      apply unlink_existing_spec in H3.
      destruct H3 as (Hro3 & Hck3 & ds3 & Hlog3 & Hincl3 & Hframe3 & Hgone3 & Hend3).
      destruct Hend3 as [[_ Hall3] | (msg & q & ? & _)]; [|discriminate].
      apply bind_inv in H. destruct H as [(a5 & s5 & H5 & H) | [(e & H5 & _) | (H5 & _)]];
        apply incr_step_inv in H5; destruct H5 as [H5 ->]; try discriminate.
      apply unlink_existing_spec in H. simpl in H.
      destruct H as (Hro & Hck & ds & Hlog & Hincl & Hframe & Hgone & Hend).
      split; [now rewrite Hro, Hro3|]. split; [now rewrite Hck, Hck3|].
      exists (ds3 ++ ds)%list,
        ([EvStep (current_step s)] ++ map EvUnlink ds3 ++ [EvInfo "Archivos intermedios eliminados"]
         ++ map EvUnlink ds)%list.
      split; [rewrite Hlog, Hlog3; simpl; now rewrite <- !app_assoc|].
      split; [simpl; rewrite filter_app, filter_effect_unlinks; simpl;
              rewrite filter_effect_unlinks; now rewrite map_app|].
      split; [intros q Hq; apply in_app_iff in Hq;
              destruct Hq as [Hq | Hq]; [apply Hincl3 in Hq | apply Hincl in Hq];
              simpl in Hq |- *; tauto|].
      split; [intros q Hq; rewrite Hframe by (intros Hin; apply Hq; apply in_app_iff; now right);
              apply Hframe3; intros Hin; apply Hq; apply in_app_iff; now left|].
      destruct Hend as [[-> Hall] | (msg & q & -> & _ & Hio)].
      * left. split; [reflexivity|]. split; [|exact Hall].
        intros _ q Hq.
        destruct (in_dec (list_eq_dec string_dec) q ds) as [Hin | Hnin]; [now apply Hgone|].
        unfold fs_exists. rewrite (Hframe q Hnin). apply Hall3 in Hq.
        unfold fs_exists in Hq. simpl in Hq. exact Hq.
      * right. exists msg, q. split; [reflexivity|]. simpl in Hio. now rewrite Hck3 in Hio.
    + (* a deletion of an intermediate file failed *)
      apply bind_inv in H2. destruct H2 as [(a2 & s3 & H3 & H4) | [(e' & H3 & He) | (H3 & ?)]];
        try discriminate.
      injection He as <-.
      apply unlink_existing_spec in H3.
      destruct H3 as (Hro3 & Hck3 & ds3 & Hlog3 & Hincl3 & Hframe3 & Hgone3 & Hend3).
      destruct Hend3 as [[? _] | (msg & q & -> & _ & Hio)]; [discriminate|].
      split; [exact Hro3|]. split; [exact Hck3|].
      exists ds3, ([EvStep (current_step s)] ++ map EvUnlink ds3)%list.
      split; [rewrite Hlog3; simpl; now rewrite <- app_assoc|].
      split; [simpl; now rewrite filter_effect_unlinks|].
      split; [intros q' Hq; apply in_app_iff; left; now apply Hincl3|].
      split; [exact Hframe3|].
      right. exists msg, q. split; [reflexivity | exact Hio].
    + apply bind_inv in H2. destruct H2 as [(a2 & s3 & H3 & H4) | [(e' & H3 & He) | (H3 & ?)]];
        try discriminate.
      apply unlink_existing_spec in H3.
      destruct H3 as (_ & _ & ds3 & _ & _ & _ & _ & [[? _] | (msg & q & ? & _)]); discriminate.
  - apply bind_inv in H. destruct H as [(a1 & s2 & H2 & H) | [(e & H2 & _) | (H2 & _)]];
      apply ret_inv in H2; destruct H2 as [H2 ->]; try discriminate.
    apply bind_inv in H. destruct H as [(a5 & s5 & H5 & H) | [(e & H5 & _) | (H5 & _)]];
      apply incr_step_inv in H5; destruct H5 as [H5 ->]; try discriminate.
    apply unlink_existing_spec in H. simpl in H.
    destruct H as (Hro & Hck & ds & Hlog & Hincl & Hframe & Hgone & Hend).
    split; [exact Hro|]. split; [exact Hck|].
    exists ds, ([EvStep (current_step s)] ++ map EvUnlink ds)%list.
    split; [rewrite Hlog; simpl; now rewrite <- app_assoc|].
    split; [simpl; now rewrite filter_effect_unlinks|].
    split; [exact Hincl|]. split; [exact Hframe|].
    destruct Hend as [[-> Hall] | (msg & q & -> & _ & Hio)].
    + left. split; [reflexivity|]. split; [discriminate | exact Hall].
    + right. exists msg, q. split; [reflexivity | exact Hio].
Qed.

(* ===================================================================== *)
(** * One work item                                                       *)
(* ===================================================================== *)

Lemma fail_last_nth (timeout : option Z) (bs : list behaviour) :
  fail_last timeout bs = true ->
  forall i b, nth_error bs i = Some b -> run_ok timeout b = false -> List.length bs = S i.
Proof.
  induction bs as [|b0 rest IH]; intros H i b Hn Hb.
  - destruct i; discriminate.
  - destruct rest as [|b1 rest'].
    + destruct i as [|i]; [reflexivity|]. destruct i; discriminate.
    + simpl in H. apply andb_true_iff in H. destruct H as [H0 Hrest].
      destruct i as [|i].
      * simpl in Hn. injection Hn as <-. congruence.
      * simpl in Hn. simpl. f_equal. now apply (IH Hrest i b).
Qed.

Lemma filter_write_or_run_effect (tr : list event) :
  filter is_write_or_run (filter is_effect tr) = filter is_write_or_run tr.
Proof.
  induction tr as [|e tr IH]; simpl; [reflexivity|].
  destruct e; simpl; now rewrite ?IH.
Qed.

Lemma filter_poll_effect (tr : list event) :
  filter is_poll (filter is_effect tr) = filter is_poll tr.
Proof.
  induction tr as [|e tr IH]; simpl; [reflexivity|].
  destruct e; simpl; now rewrite ?IH.
Qed.

Lemma filter_write_or_run_unlinks (ds : list Path) :
  filter is_write_or_run (map EvUnlink ds) = [].
Proof. induction ds as [|d ds IH]; simpl; [reflexivity | exact IH]. Qed.

Lemma filter_poll_unlinks (ds : list Path) : filter is_poll (map EvUnlink ds) = [].
Proof. induction ds as [|d ds IH]; simpl; [reflexivity | exact IH]. Qed.

Lemma filter_write_or_run_stages (timeout : option Z) (sbs : list (Path * json * behaviour)) :
  filter is_write_or_run
    (List.concat (map (fun sb => stage_events timeout (fst sb) (snd sb)) sbs))
  = List.concat (map (fun sb => stage_events timeout (fst sb) (snd sb)) sbs).
Proof. induction sbs as [|sb sbs IH]; simpl; [reflexivity | now rewrite IH]. Qed.

Lemma filter_poll_stages (timeout : option Z) (sbs : list (Path * json * behaviour)) :
  filter is_poll
    (List.concat (map (fun sb => stage_events timeout (fst sb) (snd sb)) sbs)) = [].
Proof. induction sbs as [|sb sbs IH]; simpl; [reflexivity | exact IH]. Qed.

(** One stage of the QGIS algorithm: the pipeline file cannot be written
    and nothing is run, or the file is written and pdal is run on it with
    the timeout 300. *)
Lemma qgis_stage_spec (env : Env) (pl : json) (pf : Path) (s : state) (r : res bool) (s' : state) :
  QGIS._run_pdal_pipeline env pl pf s = (r, s') ->
  raster_outputs s' = raster_outputs s
  /\ ((exists msg, r = Raised (OSError msg) /\ s' = s)
      \/ exists b tr,
           log s' = (log s ++ tr)%list
           /\ filter is_effect tr = stage_events (Some 300%Z) (pf, pl) b
           /\ ((run_ok (Some 300%Z) b = true /\ r = Ok true)
               \/ (run_ok (Some 300%Z) b = false
                   /\ (r = Ok false \/ exists msg, r = Raised (OSError msg))))).
Proof.
  unfold QGIS._run_pdal_pipeline, bind, write_json.
  destruct (io_error env (clock s) (OpWrite pf)) as [msg0|].
  - intros H. injection H as <- <-. split; [reflexivity|]. left. now exists msg0.
  - rewrite qgis_run_command_eq. cbn [fs clock].
    destruct (exec env (clock s) ["pdal"; "pipeline"; str pf] (fs_write (fs s) pf (Described pl)))
      as [b fs'].
    cbn [fst snd]. intros H. split.
    + destruct b as [secs code err | | msg];
        [destruct (300 <? secs)%Z; [|destruct (code =? 0)%Z] | |];
        injection H as <- <-; reflexivity.
    + right. exists b.
      destruct b as [secs code err | | msg];
        [destruct (300 <? secs)%Z eqn:Ht; [|destruct (code =? 0)%Z eqn:Hc] | |];
        injection H as <- <-; eexists;
        (split; [simpl; rewrite <- ?app_assoc; simpl; reflexivity|]);
        (split; [reflexivity|]); simpl; rewrite ?Ht, ?Hc; simpl; eauto.
Qed.

(** The log of the final state is the log of the first one followed by
    the events of the steps between them. *)
Ltac log_eq :=
  simpl;
  repeat (match goal with H : log _ = _ |- _ => rewrite H end);
  simpl; rewrite <- ?app_assoc; simpl; reflexivity.

(** A stage of the QGIS algorithm with the message before it and the
    test after it: the rest [K] of the item runs only if the stage
    returned [True]. *)
Lemma qgis_segment (env : Env) (msg : string) (pl : json) (pf : Path) (K : M unit)
    (s : state) (r : res unit) (s' : state) :
  (QGIS.setCurrentStep ;;
   QGIS.pushInfo msg ;;
   ok <- QGIS._run_pdal_pipeline env pl pf ;;
   if negb ok then ret tt else QGIS.incr_step ;; K) s = (r, s') ->
  (exists b tr s1,
      run_ok (Some 300%Z) b = true
      /\ log s1 = (log s ++ tr)%list
      /\ filter is_effect tr = stage_events (Some 300%Z) (pf, pl) b
      /\ raster_outputs s1 = raster_outputs s
      /\ K s1 = (r, s'))
  \/ (raster_outputs s' = raster_outputs s
      /\ (r = Ok tt \/ exists m, r = Raised (OSError m))
      /\ exists tr,
           log s' = (log s ++ tr)%list
           /\ (filter is_effect tr = []
               \/ exists b, run_ok (Some 300%Z) b = false
                            /\ filter is_effect tr = stage_events (Some 300%Z) (pf, pl) b)).
Proof.
  intros H.
  apply bind_inv in H. destruct H as [(a & s1 & H1 & H) | [(e & H1 & _) | (H1 & _)]];
    apply setCurrentStep_inv in H1; destruct H1 as [H1 ->]; try discriminate.
  apply bind_inv in H. destruct H as [(a2 & s2 & H2 & H) | [(e & H2 & _) | (H2 & _)]];
    apply emit_inv in H2; destruct H2 as [H2 ->]; try discriminate.
  apply bind_inv in H. destruct H as [(ok & s3 & H3 & H) | [(e & H3 & ->) | (H3 & ->)]];
    apply qgis_stage_spec in H3; simpl in H3; destruct H3 as [Hro H3].
  - destruct H3 as [(m & ? & _) | (b & tr & Hlog & Hev & Hb)]; [discriminate|].
    destruct Hb as [[Hb Hr] | [Hb [Hr | (m & Hr)]]]; try discriminate; injection Hr as ->.
    + (* the stage returned True *)
      simpl in H. apply bind_inv in H.
      destruct H as [(a4 & s4 & H4 & H) | [(e & H4 & _) | (H4 & _)]];
        apply incr_step_inv in H4; destruct H4 as [H4 ->]; try discriminate.
      left. exists b, ([EvStep (current_step s); EvInfo msg] ++ tr)%list. eexists.
      split; [exact Hb|]. split; [|split; [|split; [|exact H]]].
      * log_eq.
      * simpl. exact Hev.
      * simpl. exact Hro.
    + (* the stage returned False *)
      simpl in H. apply ret_inv in H. destruct H as [-> ->].
      right. split; [exact Hro|]. split; [now left|].
      exists ([EvStep (current_step s); EvInfo msg] ++ tr)%list.
      split; [log_eq|].
      right. exists b. split; [exact Hb | exact Hev].
  - (* the stage raised *)
    right. split; [exact Hro|].
    destruct H3 as [(m & Hr & ->) | (b & tr & Hlog & Hev & Hb)].
    + injection Hr as ->. split; [right; now exists m|].
      exists [EvStep (current_step s); EvInfo msg]. split; [log_eq | now left].
    + destruct Hb as [[Hb Hr] | [Hb [Hr | (m & Hr)]]]; try discriminate.
      injection Hr as ->. split; [right; now exists m|].
      exists ([EvStep (current_step s); EvInfo msg] ++ tr)%list.
      split; [log_eq|].
      right. exists b. split; [exact Hb | exact Hev].
  - destruct H3 as [(m & ? & _) | (b & tr & Hlog & Hev & Hb)]; [discriminate|].
    destruct Hb as [[Hb Hr] | [Hb [Hr | (m & Hr)]]]; discriminate.
Qed.

Lemma fail_last_cons (timeout : option Z) (b : behaviour) (bs : list behaviour) :
  run_ok timeout b = true -> fail_last timeout bs = true -> fail_last timeout (b :: bs) = true.
Proof. intros Hb Hbs. simpl. rewrite Hb, Hbs. now destruct bs. Qed.

Lemma qgis_chain_spec (env : Env) (sts : list (string * (Path * json))) (K : M unit) :
  forall s r s',
    qgis_chain env sts K s = (r, s') ->
    (exists bs tr s1,
        List.length bs = List.length sts
        /\ forallb (run_ok (Some 300%Z)) bs = true
        /\ log s1 = (log s ++ tr)%list
        /\ filter is_effect tr = stage_trace (Some 300%Z) (map snd sts) bs
        /\ raster_outputs s1 = raster_outputs s
        /\ K s1 = (r, s'))
    \/ (raster_outputs s' = raster_outputs s
        /\ (r = Ok tt \/ exists m, r = Raised (OSError m))
        /\ exists bs tr,
             List.length bs <= List.length sts
             /\ fail_last (Some 300%Z) bs = true
             /\ (List.length bs < List.length sts \/ forallb (run_ok (Some 300%Z)) bs = false)
             /\ log s' = (log s ++ tr)%list
             /\ filter is_effect tr = stage_trace (Some 300%Z) (map snd sts) bs).
Proof.
  induction sts as [|[msg [pf pl]] rest IH]; intros s r s' H.
  - left. exists [], [], s. simpl. rewrite app_nil_r. now repeat split.
  - simpl in H. apply qgis_segment in H.
    destruct H as [(b & tr & s1 & Hb & Hlog & Hev & Hro & H) | (Hro & Hr & tr & Hlog & Hev)].
    + apply IH in H.
      destruct H as [(bs & tr2 & s2 & Hlen & Hall & Hlog2 & Hev2 & Hro2 & HK)
                    | (Hro2 & Hr & bs & tr2 & Hlen & Hfl & Hinc & Hlog2 & Hev2)].
      * left. exists (b :: bs), (tr ++ tr2)%list, s2.
        split; [simpl; now rewrite Hlen|]. split; [simpl; now rewrite Hb, Hall|].
        split; [log_eq|].
        split; [rewrite filter_app, Hev, Hev2; reflexivity|].
        split; [now rewrite Hro2, Hro | exact HK].
      * right. split; [now rewrite Hro2, Hro|]. split; [exact Hr|].
        exists (b :: bs), (tr ++ tr2)%list.
        split; [simpl; lia|]. split; [now apply fail_last_cons|].
        split; [destruct Hinc as [Hinc | Hinc]; [left; simpl; lia | right; simpl; now rewrite Hb, Hinc]|].
        split; [log_eq|].
        rewrite filter_app, Hev, Hev2. reflexivity.
    + right. split; [exact Hro|]. split; [exact Hr|].
      destruct Hev as [Hev | (b & Hb & Hev)].
      * exists [], tr. split; [simpl; lia|]. split; [reflexivity|].
        split; [left; simpl; lia|]. split; [exact Hlog | exact Hev].
      * exists [b], tr. split; [simpl; lia|]. split; [reflexivity|].
        split; [right; simpl; now rewrite Hb|]. split; [exact Hlog|].
        rewrite Hev. unfold stage_trace. simpl. now rewrite combine_nil.
Qed.

Lemma forallb_fail_last (timeout : option Z) (bs : list behaviour) :
  forallb (run_ok timeout) bs = true -> fail_last timeout bs = true.
Proof.
  induction bs as [|b bs IH]; [reflexivity|]. simpl forallb. intros H.
  apply andb_true_iff in H. destruct H as [Hb Hbs]. apply fail_last_cons; auto.
Qed.

Lemma incomplete (timeout : option Z) (n : nat) (bs : list behaviour) :
  List.length bs < n \/ forallb (run_ok timeout) bs = false -> complete timeout n bs = false.
Proof.
  unfold complete. intros [H | H].
  - destruct (Nat.eqb_spec (List.length bs) n); [lia | reflexivity].
  - rewrite H. apply andb_false_r.
Qed.

Lemma qgis_item_body_spec (env : Env) (P : QGIS.params) (laz_file : Path) :
  forall s r s',
    qgis_chain env (qgis_stage_list P laz_file)
      (append_raster_output (QGIS.raster_output P (stem laz_file)) ;;
       QGIS.item_cleanup env P (stem laz_file) (qgis_pipeline_files P (stem laz_file))) s
    = (r, s') ->
    (r = Ok tt \/ exists m, r = Raised (OSError m))
    /\ exists bs ds tr, qgis_item_run env P laz_file s s' bs ds tr.
Proof.
  intros s r s' H. apply qgis_chain_spec in H.
  destruct H as [(bs & tr & s1 & Hlen & Hall & Hlog & Hev & Hro & HK)
                | (Hro & Hr & bs & tr & Hlen & Hfl & Hinc & Hlog & Hev)].
  - (* the four stages succeeded *)
    apply bind_inv in HK. destruct HK as [(a & s2 & H2 & HK) | [(e & H2 & _) | (H2 & _)]];
      unfold append_raster_output in H2; try discriminate H2; injection H2 as _ <-.
    apply item_cleanup_spec in HK. simpl in HK.
    destruct HK as (Hro' & Hck & ds & tr2 & Hlog2 & Hev2 & Hincl & Hframe & Hend).
    assert (Hc : complete (Some 300%Z) 4 bs = true).
    { unfold complete. rewrite Hall. simpl in Hlen. rewrite Hlen. reflexivity. }
    split; [destruct Hend as [[-> _] | (m & q & -> & _)]; [now left | right; now exists m]|].
    exists bs, ds, (tr ++ tr2)%list. unfold qgis_item_run. rewrite Hc.
    split; [log_eq|].
    split; [rewrite filter_app, Hev, Hev2; reflexivity|].
    split; [simpl in Hlen; lia|].
    split; [now apply forallb_fail_last|].
    split; [now rewrite Hro', Hro|].
    split; [discriminate|].
    split; [exact Hincl|].
    intros _ Hio. destruct Hend as [(_ & H3 & H4) | (m & q & _ & Hq)].
    + split; assumption.
    + rewrite Hio in Hq. discriminate.
  - split; [exact Hr|].
    exists bs, [], tr. unfold qgis_item_run.
    rewrite (incomplete (Some 300%Z) 4 bs Hinc).
    split; [exact Hlog|].
    split; [rewrite Hev; simpl; now rewrite app_nil_r|].
    split; [exact Hlen|]. split; [exact Hfl|]. split; [exact Hro|].
    split; [reflexivity|]. split; [intros q []|]. discriminate.
Qed.

(** Messages before and after an item's run change nothing of it. *)
Lemma qgis_item_run_frame (env : Env) (P : QGIS.params) (laz_file : Path)
    (s s0 s1 s' : state) (bs : list behaviour) (ds : list Path) (tr pre post : list event) :
  log s0 = (log s ++ pre)%list -> filter is_effect pre = [] ->
  raster_outputs s0 = raster_outputs s ->
  log s' = (log s1 ++ post)%list -> filter is_effect post = [] ->
  raster_outputs s' = raster_outputs s1 -> fs s' = fs s1 ->
  qgis_item_run env P laz_file s0 s1 bs ds tr ->
  qgis_item_run env P laz_file s s' bs ds (pre ++ tr ++ post).
Proof.
  intros Hpre Hfpre Hro0 Hpost Hfpost Hro1 Hfs (Hlog & Hev & Hlen & Hfl & Hro & Hds & Hincl & Hgone).
  unfold qgis_item_run.
  split; [rewrite Hpost, Hlog, Hpre; now rewrite <- !app_assoc|].
  split; [rewrite !filter_app, Hfpre, Hfpost, Hev; simpl; now rewrite app_nil_r|].
  split; [exact Hlen|]. split; [exact Hfl|].
  split; [rewrite Hro1, Hro, Hro0; reflexivity|].
  split; [exact Hds|]. split; [exact Hincl|].
  rewrite Hfs. exact Hgone.
Qed.

(** One iteration of the QGIS loop always ends normally, whatever the
    stages and the deletions did. *)
Lemma qgis_process_item_spec (env : Env) (P : QGIS.params) (laz_file : Path) :
  forall s r s',
    QGIS.process_item env P laz_file s = (r, s') ->
    r = Ok tt /\ exists bs ds tr, qgis_item_run env P laz_file s s' bs ds tr.
Proof.
  intros s r s' H. unfold QGIS.process_item in H. cbv zeta in H.
  apply bind_inv in H. destruct H as [(a & s0 & H0 & H) | [(e & H0 & _) | (H0 & _)]];
    apply emit_inv in H0; destruct H0 as [H0 ->]; try discriminate.
  apply try_catch_inv in H.
  destruct H as [(a1 & H & ->) | [(H & ->) | [(e & H & Hh & ->) | (e & s1 & k & H & Hh & Hk)]]];
    apply (qgis_item_body_spec env P laz_file) in H;
    destruct H as (Hr & bs & ds & tr & Hrun).
  - split; [now destruct a1|]. exists bs, ds. eexists.
    eapply qgis_item_run_frame with (post := []); [.. | exact Hrun];
      first [reflexivity | symmetry; apply app_nil_r].
  - destruct Hr as [Hr | (m & Hr)]; discriminate.
  - destruct Hr as [Hr | (m & Hr)]; [discriminate|]. injection Hr as ->. discriminate.
  - destruct Hr as [Hr | (m & Hr)]; [discriminate|]. injection Hr as ->.
    unfold except_Exception in Hh. simpl in Hh. injection Hh as <-.
    unfold bind, QGIS.reportError, emit, get_current_step, set_current_step in Hk.
    injection Hk as <- <-. split; [reflexivity|]. exists bs, ds. eexists.
    eapply qgis_item_run_frame; [.. | exact Hrun]; reflexivity.
Qed.

(** One stage of the standalone script: as in the QGIS algorithm, but
    pdal is run with no timeout, and a process that never ends blocks
    the script. *)
Lemma standalone_stage_spec (env : Env) (pl : json) (pf : Path) (d : string)
    (s : state) (r : res bool) (s' : state) :
  Standalone.run_pdal_pipeline env pl pf d s = (r, s') ->
  raster_outputs s' = raster_outputs s
  /\ ((exists msg, r = Raised (OSError msg) /\ s' = s)
      \/ exists b tr,
           log s' = (log s ++ tr)%list
           /\ filter is_effect tr = stage_events None (pf, pl) b
           /\ ((run_ok None b = true /\ r = Ok true)
               \/ (run_ok None b = false
                   /\ (r = Ok false \/ (exists msg, r = Raised (OSError msg))
                       \/ (r = Hang /\ b = Never))))).
Proof.
  unfold Standalone.run_pdal_pipeline, bind, write_json.
  destruct (io_error env (clock s) (OpWrite pf)) as [msg0|].
  - intros H. injection H as <- <-. split; [reflexivity|]. left. now exists msg0.
  - rewrite standalone_run_command_eq. cbn [fs clock].
    destruct (exec env (clock s) ["pdal"; "pipeline"; str pf] (fs_write (fs s) pf (Described pl)))
      as [b fs'].
    cbn [fst snd]. intros H. split.
    + destruct b as [secs code err | | msg];
        [destruct (code =? 0)%Z | |];
        injection H as <- <-; reflexivity.
    + right. exists b.
      destruct b as [secs code err | | msg];
        [destruct (code =? 0)%Z eqn:Hc; [|destruct (Py.truthy err)] | |];
        injection H as <- <-; eexists;
        (split; [simpl; rewrite <- ?app_assoc; simpl; reflexivity|]);
        (split; [reflexivity|]); simpl; rewrite ?Hc; simpl; eauto 6.
Qed.

Lemma standalone_chain_spec (env : Env) (sts : list (string * string * (Path * json))) (K : M unit) :
  forall s r s',
    standalone_chain env sts K s = (r, s') ->
    (exists bs tr s1,
        List.length bs = List.length sts
        /\ forallb (run_ok None) bs = true
        /\ log s1 = (log s ++ tr)%list
        /\ filter is_effect tr = stage_trace None (map snd sts) bs
        /\ raster_outputs s1 = raster_outputs s
        /\ K s1 = (r, s'))
    \/ (raster_outputs s' = raster_outputs s
        /\ exists bs tr,
             List.length bs <= List.length sts
             /\ fail_last None bs = true
             /\ (List.length bs < List.length sts \/ forallb (run_ok None) bs = false)
             /\ log s' = (log s ++ tr)%list
             /\ filter is_effect tr = stage_trace None (map snd sts) bs
             /\ (r = Ok tt \/ (exists m, r = Raised (OSError m))
                 \/ (r = Hang /\ exists bs', bs = (bs' ++ [Never])%list))).
Proof.
  induction sts as [|[[msg d] [pf pl]] rest IH]; intros s r s' H.
  - left. exists [], [], s. simpl. rewrite app_nil_r. now repeat split.
  - simpl in H.
    apply bind_inv in H. destruct H as [(a & s0 & H0 & H) | [(e & H0 & _) | (H0 & _)]];
      apply emit_inv in H0; destruct H0 as [H0 ->]; try discriminate.
    apply bind_inv in H. destruct H as [(ok & s1 & H1 & H) | [(e & H1 & ->) | (H1 & ->)]];
      apply standalone_stage_spec in H1; simpl in H1; destruct H1 as [Hro H1].
    + destruct H1 as [(m & ? & _) | (b & tr & Hlog & Hev & Hb)]; [discriminate|].
      destruct Hb as [[Hb Hr] | [Hb [Hr | [(m & Hr) | [Hr _]]]]]; try discriminate;
        injection Hr as ->; simpl in H.
      * apply IH in H.
        destruct H as [(bs & tr2 & s2 & Hlen & Hall & Hlog2 & Hev2 & Hro2 & HK)
                      | (Hro2 & bs & tr2 & Hlen & Hfl & Hinc & Hlog2 & Hev2 & Hr)].
        -- left. exists (b :: bs), ([EvPrint msg] ++ tr ++ tr2)%list, s2.
           split; [simpl; now rewrite Hlen|]. split; [simpl; now rewrite Hb, Hall|].
           split; [log_eq|].
           split; [simpl; rewrite filter_app, Hev, Hev2; reflexivity|].
           split; [now rewrite Hro2, Hro | exact HK].
        -- right. split; [now rewrite Hro2, Hro|].
           exists (b :: bs), ([EvPrint msg] ++ tr ++ tr2)%list.
           split; [simpl; lia|]. split; [now apply fail_last_cons|].
           split; [destruct Hinc as [Hinc | Hinc];
                   [left; simpl; lia | right; simpl; now rewrite Hb, Hinc]|].
           split; [log_eq|].
           split; [simpl; rewrite filter_app, Hev, Hev2; reflexivity|].
           destruct Hr as [Hr | [Hr | [Hr (bs' & ->)]]]; auto.
           right. right. split; [exact Hr|]. now exists (b :: bs').
      * apply ret_inv in H. destruct H as [-> ->].
        right. split; [exact Hro|]. exists [b], ([EvPrint msg] ++ tr)%list.
        split; [simpl; lia|]. split; [reflexivity|].
        split; [right; simpl; now rewrite Hb|]. split; [log_eq|].
        split; [simpl; rewrite Hev; unfold stage_trace; simpl; now rewrite combine_nil|].
        now left.
    + right. split; [exact Hro|].
      destruct H1 as [(m & Hr & ->) | (b & tr & Hlog & Hev & Hb)].
      * injection Hr as ->. exists [], [EvPrint msg].
        split; [simpl; lia|]. split; [reflexivity|]. split; [left; simpl; lia|].
        split; [log_eq|]. split; [reflexivity|]. right. left. now exists m.
      * destruct Hb as [[Hb Hr] | [Hb [Hr | [(m & Hr) | [Hr _]]]]]; try discriminate.
        injection Hr as ->. exists [b], ([EvPrint msg] ++ tr)%list.
        split; [simpl; lia|]. split; [reflexivity|].
        split; [right; simpl; now rewrite Hb|]. split; [log_eq|].
        split; [simpl; rewrite Hev; unfold stage_trace; simpl; now rewrite combine_nil|].
        right. left. now exists m.
    + right. split; [exact Hro|].
      destruct H1 as [(m & ? & _) | (b & tr & Hlog & Hev & Hb)]; [discriminate|].
      destruct Hb as [[Hb Hr] | [Hb [Hr | [(m & Hr) | [_ ->]]]]]; try discriminate.
      exists [Never], ([EvPrint msg] ++ tr)%list.
      split; [simpl; lia|]. split; [reflexivity|].
      split; [right; reflexivity|]. split; [log_eq|].
      split; [simpl; rewrite Hev; unfold stage_trace; simpl; now rewrite combine_nil|].
      right. right. split; [reflexivity|]. now exists [].
Qed.

Lemma standalone_item_run_frame (laz_file : Path)
    (s s0 s1 s' : state) (bs : list behaviour) (tr pre post : list event) :
  log s0 = (log s ++ pre)%list -> filter is_effect pre = [] ->
  raster_outputs s0 = raster_outputs s ->
  log s' = (log s1 ++ post)%list -> filter is_effect post = [] ->
  raster_outputs s' = raster_outputs s1 ->
  standalone_item_run laz_file s0 s1 bs tr ->
  standalone_item_run laz_file s s' bs (pre ++ tr ++ post).
Proof.
  intros Hpre Hfpre Hro0 Hpost Hfpost Hro1 (Hlog & Hev & Hlen & Hfl & Hro).
  unfold standalone_item_run.
  split; [rewrite Hpost, Hlog, Hpre; now rewrite <- !app_assoc|].
  split; [rewrite !filter_app, Hfpre, Hfpost, Hev; simpl; now rewrite app_nil_r|].
  split; [exact Hlen|]. split; [exact Hfl|].
  rewrite Hro1, Hro, Hro0. reflexivity.
Qed.

Lemma standalone_item_body_spec (env : Env) (laz_file : Path) :
  forall s r s',
    standalone_chain env (standalone_stage_list laz_file)
      (append_raster_output (Standalone.raster_output (stem laz_file)) ;;
       print ("✅ Completado: " ++ name laz_file ++ nl)) s
    = (r, s') ->
    exists bs tr,
      standalone_item_run laz_file s s' bs tr
      /\ (r = Ok tt \/ (exists m, r = Raised (OSError m))
          \/ (r = Hang /\ exists bs', bs = (bs' ++ [Never])%list)).
Proof.
  intros s r s' H. apply standalone_chain_spec in H.
  destruct H as [(bs & tr & s1 & Hlen & Hall & Hlog & Hev & Hro & HK)
                | (Hro & bs & tr & Hlen & Hfl & Hinc & Hlog & Hev & Hr)].
  - unfold bind, append_raster_output, print, emit in HK. injection HK as <- <-.
    assert (Hc : complete None 4 bs = true).
    { unfold complete. rewrite Hall. simpl in Hlen. rewrite Hlen. reflexivity. }
    exists bs, (tr ++ [EvPrint ("✅ Completado: " ++ name laz_file ++ nl)])%list.
    split; [|now left].
    unfold standalone_item_run. rewrite Hc.
    split; [cbn [log]; rewrite Hlog; now rewrite <- app_assoc|].
    split; [rewrite filter_app, Hev; cbn [filter is_effect]; now rewrite app_nil_r|].
    split; [simpl in Hlen; lia|].
    split; [now apply forallb_fail_last|].
    cbn [raster_outputs]. now rewrite Hro.
  - exists bs, tr. split; [|exact Hr].
    unfold standalone_item_run. rewrite (incomplete None 4 bs Hinc).
    split; [exact Hlog|]. split; [exact Hev|].
    split; [exact Hlen|]. split; [exact Hfl | exact Hro].
Qed.

(** One iteration of the standalone loop ends normally, unless a stage
    process never ends. *)
Lemma standalone_process_item_spec (env : Env) (total i : nat) (laz_file : Path) :
  forall s r s',
    Standalone.process_item env total i laz_file s = (r, s') ->
    exists bs tr,
      standalone_item_run laz_file s s' bs tr
      /\ (r = Ok tt \/ (r = Hang /\ exists bs', bs = (bs' ++ [Never])%list)).
Proof.
  intros s r s' H. unfold Standalone.process_item in H. cbv zeta in H.
  apply bind_inv in H. destruct H as [(a & s0 & H0 & H) | [(e & H0 & _) | (H0 & _)]];
    apply emit_inv in H0; destruct H0 as [H0 ->]; try discriminate.
  apply bind_inv in H. destruct H as [(a1 & s0 & H1 & H) | [(e & H1 & _) | (H1 & _)]];
    apply emit_inv in H1; destruct H1 as [H1 ->]; try discriminate.
  apply bind_inv in H. destruct H as [(a2 & s0 & H2 & H) | [(e & H2 & _) | (H2 & _)]];
    apply emit_inv in H2; destruct H2 as [H2 ->]; try discriminate.
  apply try_catch_inv in H.
  destruct H as [(a3 & H & ->) | [(H & ->) | [(e & H & Hh & ->) | (e & s1 & k & H & Hh & Hk)]]];
    apply (standalone_item_body_spec env laz_file) in H;
    destruct H as (bs & tr & Hrun & Hr).
  - exists bs. eexists. split; [|left; now destruct a3].
    eapply standalone_item_run_frame with (post := []); [.. | exact Hrun];
      first [reflexivity | symmetry; apply app_nil_r
            | cbn [log add_events]; rewrite <- !app_assoc; reflexivity].
  - exists bs. eexists. split.
    + eapply standalone_item_run_frame with (post := []); [.. | exact Hrun];
        first [reflexivity | symmetry; apply app_nil_r
            | cbn [log add_events]; rewrite <- !app_assoc; reflexivity].
    + right. split; [reflexivity|].
      destruct Hr as [Hr | [(m & Hr) | [_ Hr]]]; [discriminate | discriminate | exact Hr].
  - destruct Hr as [Hr | [(m & Hr) | [Hr _]]]; try discriminate.
    injection Hr as ->. discriminate.
  - destruct Hr as [Hr | [(m & Hr) | [Hr _]]]; try discriminate.
    injection Hr as ->.
    unfold except_Exception in Hh. simpl in Hh. injection Hh as <-.
    unfold print, emit in Hk. injection Hk as <- <-.
    exists bs. eexists. split; [|now left].
    eapply standalone_item_run_frame; [.. | exact Hrun];
      first [reflexivity | cbn [log add_events]; rewrite <- !app_assoc; reflexivity].
Qed.

(* ===================================================================== *)
(** * Stage order and failure isolation within the loop                   *)
(* ===================================================================== *)

Lemma qgis_item_run_ordered (env : Env) (P : QGIS.params) (laz_file : Path)
    (s s' : state) (bs : list behaviour) (ds : list Path) (tr : list event) :
  qgis_item_run env P laz_file s s' bs ds tr ->
  ordered_stage_run (Some 300%Z) (qgis_stages P laz_file)
    (QGIS.raster_output P (stem laz_file)) s s' bs.
Proof.
  intros (Hlog & Hev & Hlen & Hfl & Hro & _).
  unfold ordered_stage_run. split; [exact Hlen|]. split.
  - exists tr. split; [exact Hlog|].
    rewrite <- filter_write_or_run_effect, Hev, filter_app, filter_write_or_run_unlinks.
    unfold stage_trace. rewrite filter_write_or_run_stages. apply app_nil_r.
  - split; [now apply fail_last_nth|]. exact Hro.
Qed.


(** The QGIS loop at an item: the cancellation check, then the item,
    then the rest of the loop. *)
Lemma qgis_process_items_cons (env : Env) (P : QGIS.params) (laz_file : Path)
    (rest : list Path) (s : state) :
  QGIS.process_items env P (laz_file :: rest) s
  = if canceled env (clock s)
    then (Ok tt, add_events s [EvPoll true])
    else QGIS.process_items env P rest
           (snd (QGIS.process_item env P laz_file (add_events s [EvPoll false]))).
Proof.
  unfold QGIS.process_items. simpl for_. unfold bind at 1 2. unfold QGIS.isCanceled at 1.
  fold (add_events s [EvPoll (canceled env (clock s))]).
  destruct (canceled env (clock s)); [reflexivity|].
  unfold bind at 1.
  destruct (QGIS.process_item env P laz_file (add_events s [EvPoll false])) as [r s'] eqn:E.
  apply qgis_process_item_spec in E. destruct E as (-> & _). reflexivity.
Qed.

(** The standalone loop at an item: the item, then the rest of the
    loop. *)
Lemma standalone_process_items_cons (env : Env) (total i : nat) (laz_file : Path)
    (rest : list (nat * Path)) (s : state) :
  Standalone.process_items env total ((i, laz_file) :: rest) s
  = match fst (Standalone.process_item env total i laz_file s) with
    | Ok _ => Standalone.process_items env total rest
                (snd (Standalone.process_item env total i laz_file s))
    | Raised e => (Raised e, snd (Standalone.process_item env total i laz_file s))
    | Hang => (Hang, snd (Standalone.process_item env total i laz_file s))
    end.
Proof.
  unfold Standalone.process_items. simpl for_. unfold bind at 1 2. cbn [fst snd].
  destruct (Standalone.process_item env total i laz_file s) as [[[] | e |] s']; reflexivity.
Qed.

(** The descriptions of the two filter stages select the classes 2 and
    6. *)
Example filter_stage_descriptions :
  map snd (firstn 2 (qgis_stages twin_params ["in"; "a.laz"]))
  = [ JDict [("pipeline",
              JList [ JStr "in/a.laz";
                      JDict [("type", JStr "filters.range");
                             ("limits", JStr "Classification[2:2]")];
                      JStr "out/a_suelo.las" ])];
      JDict [("pipeline",
              JList [ JStr "in/a.laz";
                      JDict [("type", JStr "filters.range");
                             ("limits", JStr "Classification[6:6]")];
                      JStr "out/a_edificios.las" ])] ]
  /\ map snd (firstn 2 (standalone_stages ["in"; "a.laz"]))
     = map (fun c => Standalone.create_pipeline_json ["in"; "a.laz"]
                       (Standalone.OUTPUT_FOLDER // ("a_" ++ fst c ++ ".las")) (snd c))
           [("suelo", 2%Z); ("edificios", 6%Z)].
Proof. split; vm_compute; reflexivity. Qed.


(* ===================================================================== *)
(** * Intermediate files and the raster                                   *)
(* ===================================================================== *)






Example item_success_cleans_up :
  let s' := snd (QGIS.process_item env_all_ok twin_params ["in"; "a.laz"] (initial one_laz)) in
  raster_outputs s' = [ ["out"; "a_raster.tif"] ]
  /\ fs s' = [ (["in"; "a.laz"], Blob) ]
  /\ filter is_effect (log s')
     = (stage_trace (Some 300%Z) (qgis_stages twin_params ["in"; "a.laz"])
                    [Exits 1 0 ""; Exits 1 0 ""; Exits 1 0 ""; Exits 1 0 ""]
        ++ map EvUnlink (["out"; "a_suelo.las"] :: qgis_pipeline_files twin_params "a"))%list.
Proof. vm_compute. repeat split. Qed.

(* ===================================================================== *)
(** * The loops of the batch                                              *)
(* ===================================================================== *)

Lemma subseq_refl {A} (l : list A) : subseq l l.
Proof. induction l; constructor; assumption. Qed.

Lemma subseq_length {A} (l1 l2 : list A) : subseq l1 l2 -> List.length l1 <= List.length l2.
Proof. induction 1; simpl; lia. Qed.

Lemma subseq_In {A} (l1 l2 : list A) (x : A) : subseq l1 l2 -> In x l1 -> In x l2.
Proof.
  induction 1; intros Hin; [contradiction | right; auto |].
  destruct Hin as [-> | Hin]; [now left | right; auto].
Qed.

(** The QGIS loop over the items always ends normally; the rasters it
    appends are those of some of the items, in order. *)
Lemma qgis_process_items_spec (env : Env) (P : QGIS.params) (items : list Path) :
  forall s, exists s' done tr,
    QGIS.process_items env P items s = (Ok tt, s')
    /\ subseq done items
    /\ raster_outputs s'
       = (raster_outputs s ++ map (fun l => QGIS.raster_output P (stem l)) done)%list
    /\ log s' = (log s ++ tr)%list.
Proof.
  induction items as [|x rest IH]; intros s.
  - exists s, [], []. simpl. rewrite !app_nil_r. repeat split. constructor.
  - rewrite qgis_process_items_cons. destruct (canceled env (clock s)).
    + exists (add_events s [EvPoll true]), [], [EvPoll true]. simpl. rewrite app_nil_r.
      repeat split. constructor. clear. induction rest; constructor; assumption.
    + destruct (QGIS.process_item env P x (add_events s [EvPoll false])) as [r s1] eqn:E.
      apply qgis_process_item_spec in E.
      destruct E as (-> & bs & ds & tr & (Hlog & _ & _ & _ & Hro & _)).
      cbn [snd]. destruct (IH s1) as (s' & done & tr' & Hp & Hsub & Hro' & Hlog').
      destruct (complete (Some 300%Z) 4 bs).
      * exists s', (x :: done), ([EvPoll false] ++ tr ++ tr')%list.
        split; [exact Hp|]. split; [now constructor|].
        split; [rewrite Hro', Hro; simpl; now rewrite <- app_assoc|]. log_eq.
      * exists s', done, ([EvPoll false] ++ tr ++ tr')%list.
        split; [exact Hp|]. split; [now constructor|].
        split; [rewrite Hro', Hro; reflexivity|]. log_eq.
Qed.

(** The run of the last started stage is in the trace. *)
Lemma stage_trace_last_run (timeout : option Z) (stages : list (Path * json))
    (bs' : list behaviour) (b : behaviour) :
  List.length (bs' ++ [b]) <= List.length stages ->
  exists cmd, In (EvRun cmd timeout b) (stage_trace timeout stages (bs' ++ [b])).
Proof.
  unfold stage_trace. revert stages.
  induction bs' as [|b0 bs' IH]; intros stages Hlen.
  - destruct stages as [|st stages]; [simpl in Hlen; lia|].
    exists ["pdal"; "pipeline"; str (fst st)]. simpl. right. now left.
  - destruct stages as [|st stages]; [simpl in Hlen; lia|].
    simpl in Hlen. destruct (IH stages) as (cmd & Hin); [simpl; lia|].
    exists cmd. simpl. right. right. exact Hin.
Qed.

(** The standalone loop over the items ends normally unless a pdal
    process never ends. *)
Lemma standalone_process_items_spec (env : Env) (total : nat) (items : list (nat * Path)) :
  forall s, exists r s' done tr,
    Standalone.process_items env total items s = (r, s')
    /\ subseq done (map snd items)
    /\ raster_outputs s'
       = (raster_outputs s ++ map (fun l => Standalone.raster_output (stem l)) done)%list
    /\ log s' = (log s ++ tr)%list
    /\ (r = Ok tt \/ (r = Hang /\ exists cmd, In (EvRun cmd None Never) tr)).
Proof.
  induction items as [|[i x] rest IH]; intros s.
  - exists (Ok tt), s, [], []. simpl. rewrite !app_nil_r. repeat split; [constructor | now left].
  - rewrite standalone_process_items_cons.
    destruct (Standalone.process_item env total i x s) as [r s1] eqn:E. cbn [fst snd].
    apply standalone_process_item_spec in E.
    destruct E as (bs & tr & (Hlog & Hev & Hlen & _ & Hro) & Hr).
    destruct Hr as [-> | [-> (bs' & ->)]].
    + destruct (IH s1) as (r & s' & done & tr' & Hp & Hsub & Hro' & Hlog' & Hr).
      assert (Hr' : r = Ok tt \/ r = Hang /\ exists cmd, In (EvRun cmd None Never) (tr ++ tr')).
      { destruct Hr as [Hr | [Hr (cmd & Hin)]]; [now left | right].
        split; [exact Hr|]. exists cmd. apply in_app_iff. now right. }
      destruct (complete None 4 bs).
      * exists r, s', (x :: done), (tr ++ tr')%list.
        split; [exact Hp|]. split; [simpl; now constructor|].
        split; [rewrite Hro', Hro; simpl; now rewrite <- app_assoc|].
        split; [log_eq | exact Hr'].
      * exists r, s', done, (tr ++ tr')%list.
        split; [exact Hp|]. split; [simpl; now constructor|].
        split; [rewrite Hro', Hro; reflexivity|].
        split; [log_eq | exact Hr'].
    + exists Hang, s1, [], tr. split; [reflexivity|].
      split; [clear; induction (map snd ((i, x) :: rest)); constructor; assumption|].
      assert (Hc : complete None 4 (bs' ++ [Never]) = false).
      { apply incomplete. right. rewrite forallb_app. simpl. apply andb_false_r. }
      rewrite Hc in Hro.
      split; [simpl; now rewrite app_nil_r|]. split; [exact Hlog|].
      right. split; [reflexivity|].
      destruct (stage_trace_last_run None (standalone_stages x) bs' Never Hlen) as (cmd & Hin). exists cmd. rewrite <- Hev in Hin.
      apply filter_In in Hin. tauto.
Qed.

Lemma subseq_nil_l {A} (l : list A) : subseq [] l.
Proof. induction l; constructor; assumption. Qed.

(** One fill of the QGIS algorithm: it ends normally unless the process
    cannot be started. *)
Lemma qgis_fill_one_eq (env : Env) (P : QGIS.params) (tool : list string) (raster_file : Path)
    (s : state) :
  QGIS.fill_one env P tool raster_file s
  = match fst (exec env (clock s) (qgis_fill_cmd P tool raster_file) (fs s)) with
    | SpawnFails msg =>
        (Raised (OSError msg),
         after_run s (qgis_fill_cmd P tool raster_file) (Some 300%Z) (SpawnFails msg) (fs s))
    | _ =>
        (Ok tt, snd (QGIS.fill_one env P tool raster_file s))
    end.
Proof.
  unfold QGIS.fill_one. cbv zeta. fold (qgis_fill_cmd P tool raster_file).
  unfold bind. rewrite qgis_run_command_eq.
  destruct (exec env (clock s) (qgis_fill_cmd P tool raster_file) (fs s)) as [b fs'].
  cbn [fst snd].
  destruct b as [secs code err | | msg]; try reflexivity.
  destruct (300 <? secs)%Z; [reflexivity|]. destruct (code =? 0)%Z; reflexivity.
Qed.

Lemma qgis_fill_one_spec (env : Env) (P : QGIS.params) (tool : list string) (raster_file : Path)
    (s : state) (r : res unit) (s' : state) :
  QGIS.fill_one env P tool raster_file s = (r, s') ->
  raster_outputs s' = raster_outputs s
  /\ exists tr,
       log s' = (log s ++ tr)%list
       /\ (r = Ok tt
           \/ exists m, r = Raised (OSError m)
                        /\ tr = [EvRun (qgis_fill_cmd P tool raster_file) (Some 300%Z) (SpawnFails m)]).
Proof.
  unfold QGIS.fill_one. cbv zeta. fold (qgis_fill_cmd P tool raster_file).
  unfold bind. rewrite qgis_run_command_eq.
  destruct (exec env (clock s) (qgis_fill_cmd P tool raster_file) (fs s)) as [b fs'].
  cbn [fst snd].
  destruct b as [secs code err | | msg];
    [destruct (300 <? secs)%Z; [|destruct (code =? 0)%Z] | |];
    intros H; injection H as <- <-; (split; [reflexivity|]); eexists;
    (split; [simpl; rewrite <- ?app_assoc; reflexivity|]); eauto.
Qed.

(** The QGIS fill loop at a raster: the cancellation check, then the
    fill, then the rest of the loop; a fill whose process cannot be
    started ends the loop with its exception. *)
Lemma qgis_fill_loop_cons (env : Env) (P : QGIS.params) (tool : list string)
    (raster_file : Path) (rest : list Path) (s : state) :
  QGIS.fill_loop env P tool (raster_file :: rest) s
  = if canceled env (clock s)
    then (Ok tt, add_events s [EvPoll true])
    else match fst (exec env (clock s) (qgis_fill_cmd P tool raster_file) (fs s)) with
         | SpawnFails msg =>
             (Raised (OSError msg),
              after_run (add_events s [EvPoll false]) (qgis_fill_cmd P tool raster_file)
                        (Some 300%Z) (SpawnFails msg) (fs s))
         | _ =>
             QGIS.fill_loop env P tool rest
               (snd (QGIS.fill_one env P tool raster_file (add_events s [EvPoll false])))
         end.
Proof.
  unfold QGIS.fill_loop. simpl for_. unfold bind at 1 2. unfold QGIS.isCanceled at 1.
  fold (add_events s [EvPoll (canceled env (clock s))]).
  destruct (canceled env (clock s)); [reflexivity|].
  unfold bind at 1. rewrite qgis_fill_one_eq. cbn [fs clock add_events].
  destruct (fst (exec env (clock s) (qgis_fill_cmd P tool raster_file) (fs s))); reflexivity.
Qed.

Lemma qgis_fill_loop_spec (env : Env) (P : QGIS.params) (tool : list string)
    (rasters : list Path) :
  forall s r s',
    QGIS.fill_loop env P tool rasters s = (r, s') ->
    raster_outputs s' = raster_outputs s
    /\ exists tr,
         log s' = (log s ++ tr)%list
         /\ (r = Ok tt
             \/ exists m raster_file pre,
                  In raster_file rasters /\ r = Raised (OSError m)
                  /\ tr = (pre ++ [EvRun (qgis_fill_cmd P tool raster_file) (Some 300%Z)
                                         (SpawnFails m)])%list
                  /\ exists t files,
                       fst (exec env t (qgis_fill_cmd P tool raster_file) files) = SpawnFails m).
Proof.
  induction rasters as [|x rest IH]; intros s r s' H.
  - unfold QGIS.fill_loop in H. simpl in H. apply ret_inv in H. destruct H as [-> ->].
    split; [reflexivity|]. exists []. rewrite app_nil_r. split; [reflexivity | now left].
  - rewrite qgis_fill_loop_cons in H. destruct (canceled env (clock s)).
    + injection H as <- <-. split; [reflexivity|]. exists [EvPoll true].
      split; [reflexivity | now left].
    + destruct (QGIS.fill_one env P tool x (add_events s [EvPoll false])) as [r1 s1] eqn:E.
      pose proof E as E'. rewrite qgis_fill_one_eq in E'. cbn [fs clock add_events] in E'.
      apply qgis_fill_one_spec in E. destruct E as (Hro1 & tr1 & Hlog1 & Hr1).
      cbn [snd] in H.
      destruct (fst (exec env (clock s) (qgis_fill_cmd P tool x) (fs s)))
        as [secs code err | | msg] eqn:Hexec.
      1, 2: apply IH in H; destruct H as (Hro & tr & Hlog & Hr);
        (split; [now rewrite Hro, Hro1|]); exists ([EvPoll false] ++ tr1 ++ tr)%list;
        (split; [log_eq|]);
        destruct Hr as [-> | (m & y & pre & Hy & -> & -> & Hcause)]; [now left | right];
        exists m, y, ([EvPoll false] ++ tr1 ++ pre)%list;
        (split; [now right|]); (split; [reflexivity|]);
        (split; [now rewrite <- !app_assoc | exact Hcause]).
      injection H as <- <-. split; [reflexivity|].
      exists [EvPoll false; EvRun (qgis_fill_cmd P tool x) (Some 300%Z) (SpawnFails msg)].
      split; [simpl; now rewrite <- app_assoc|].
      right. exists msg, x, [EvPoll false]. split; [now left|]. split; [reflexivity|].
      split; [reflexivity|]. now exists (clock s), (fs s).
Qed.

(** The fill stage of the QGIS algorithm: it ends normally (also when
    no tool is found), unless the process of a fill cannot be started. *)
Lemma qgis_fill_stage_spec (env : Env) (P : QGIS.params) (s : state) (r : res unit) (s' : state) :
  QGIS.fill_stage env P s = (r, s') ->
  raster_outputs s' = raster_outputs s
  /\ exists tr,
       log s' = (log s ++ tr)%list
       /\ (r = Ok tt
           \/ exists m tool raster_file pre,
                In tool opciones /\ In raster_file (raster_outputs s)
                /\ r = Raised (OSError m)
                /\ tr = (pre ++ [EvRun (qgis_fill_cmd P tool raster_file) (Some 300%Z)
                                       (SpawnFails m)])%list
                /\ exists t files,
                     fst (exec env t (qgis_fill_cmd P tool raster_file) files) = SpawnFails m).
Proof.
  unfold QGIS.fill_stage. unfold bind at 1. unfold get_raster_outputs at 1.
  destruct (raster_outputs s) as [|x rasters] eqn:Hrs.
  - intros H. apply ret_inv in H. destruct H as [-> ->].
    split; [now rewrite Hrs|]. exists []. rewrite app_nil_r. split; [reflexivity | now left].
  - intros H. rewrite <- Hrs.
    apply bind_inv in H. destruct H as [(a & s0 & H0 & H) | [(e & H0 & _) | (H0 & _)]];
      apply emit_inv in H0; destruct H0 as [H0 ->]; try discriminate.
    apply bind_inv in H. destruct H as [(a1 & s0 & H1 & H) | [(e & H1 & _) | (H1 & _)]];
      apply emit_inv in H1; destruct H1 as [H1 ->]; try discriminate.
    apply bind_inv in H. destruct H as [(a2 & s0 & H2 & H) | [(e & H2 & _) | (H2 & _)]];
      apply emit_inv in H2; destruct H2 as [H2 ->]; try discriminate.
    unfold QGIS._detect_fillnodata in H. unfold bind at 1 in H.
    match type of H with
    | context [probe env opciones ?st] =>
        destruct (probe_spec env opciones st) as (found & s3 & Hp & Hro3 & _ & Hfound)
    end.
    rewrite Hp in H. cbn [raster_outputs add_events] in Hro3.
    destruct found as [tool|].
    + destruct Hfound as (pre & post & fails & b & Hop & _ & _ & _ & Hlog3).
      apply bind_inv in H. destruct H as [(a4 & s4 & H4 & H) | [(e & H4 & _) | (H4 & _)]];
        apply emit_inv in H4; destruct H4 as [H4 ->]; try discriminate.
      apply qgis_fill_loop_spec in H. cbn [raster_outputs log add_events] in H.
      destruct H as (Hro & tr & Hlog & Hr).
      split; [now rewrite Hro, Hro3|]. eexists.
      split; [rewrite Hlog, Hlog3; cbn [log add_events]; rewrite <- !app_assoc; reflexivity|].
      destruct Hr as [-> | (m & y & pre' & Hy & -> & -> & Hcause)]; [now left | right].
      exists m, tool, y. eexists.
      split; [rewrite Hop; apply in_app_iff; right; now left|].
      split; [rewrite Hrs; exact Hy|]. split; [reflexivity|].
      split; [rewrite !app_assoc; reflexivity | exact Hcause].
    + destruct Hfound as (fails & _ & _ & Hlog3).
      apply emit_inv in H. destruct H as [-> ->].
      split; [exact Hro3|]. eexists.
      split; [cbn [log add_events]; rewrite Hlog3; cbn [log add_events];
              rewrite <- !app_assoc; reflexivity|].
      now left.
Qed.

(** The whole QGIS algorithm. *)
Lemma qgis_processAlgorithm_spec (env : Env) (P : QGIS.params) (s : state) :
  exists r s',
    QGIS.processAlgorithm env P s = (r, s')
    /\ match QGIS.laz_files (fs s) P with
       | [] =>
           r = Raised (PlainException "No se encontraron archivos LAZ/LAS en la carpeta")
           /\ s' = s
       | found =>
           exists done,
             subseq done found
             /\ raster_outputs s' = map (fun l => QGIS.raster_output P (stem l)) done
             /\ (r = Ok (QGIS.mkResult (str (QGIS.output_folder P))
                                       (List.length done) (List.length found))
                 \/ exists m tool raster_file pre,
                      In tool opciones
                      /\ In raster_file (raster_outputs s')
                      /\ r = Raised (OSError m)
                      /\ log s' = (pre ++ [EvRun (qgis_fill_cmd P tool raster_file) (Some 300%Z)
                                                 (SpawnFails m)])%list
                      /\ exists t files,
                           fst (exec env t (qgis_fill_cmd P tool raster_file) files)
                           = SpawnFails m)
       end.
Proof.
  destruct (QGIS.processAlgorithm env P s) as [r s'] eqn:E. exists r, s'.
  split; [reflexivity|].
  unfold QGIS.processAlgorithm in E. unfold bind at 1 in E. unfold get_fs at 1 in E.
  cbv zeta in E.
  destruct (QGIS.laz_files (fs s) P) as [|x found] eqn:Hfound.
  - apply raise_inv in E. destruct E as [-> ->]. now split.
  - unfold bind at 1 2 in E. unfold reset_raster_outputs at 1 in E.
    unfold set_current_step at 1 in E. cbn [fs clock log raster_outputs current_step] in E.
    unfold bind at 1 in E.
    match type of E with
    | context [QGIS.process_items env P (x :: found) ?st] =>
        destruct (qgis_process_items_spec env P (x :: found) st)
          as (s1 & done & tr1 & Hp & Hsub & Hro1 & Hlog1)
    end.
    rewrite Hp in E. cbn [raster_outputs app] in Hro1.
    apply bind_inv in E. destruct E as [(a & s2 & H2 & E) | [(e & H2 & _) | (H2 & _)]];
      apply setCurrentStep_inv in H2; destruct H2 as [H2 ->]; try discriminate.
    apply bind_inv in E. destruct E as [(a3 & s3 & H3 & E) | [(e & H3 & ->) | (H3 & ->)]];
      apply qgis_fill_stage_spec in H3; cbn [raster_outputs log add_events] in H3;
      destruct H3 as (Hro3 & tr3 & Hlog3 & Hr3).
    + unfold bind, get_raster_outputs, QGIS.pushInfo, emit, ret in E.
      injection E as <- <-. cbn [raster_outputs]. exists done.
      split; [exact Hsub|]. split; [now rewrite Hro3|].
      left. now rewrite Hro3, Hro1, length_map.
    + exists done. split; [exact Hsub|]. split; [now rewrite Hro3|].
      destruct Hr3 as [Hr | (m & tool & y & pre & Htool & Hy & Hr & -> & Hcause)]; [discriminate|].
      injection Hr as ->. right. exists m, tool, y. eexists.
      split; [exact Htool|]. split; [now rewrite Hro3|]. split; [reflexivity|].
      split; [rewrite Hlog3; rewrite !app_assoc; reflexivity | exact Hcause].
    + destruct Hr3 as [Hr | (m & tool & y & pre & _ & _ & Hr & _)]; discriminate.
Qed.

(** One fill of the standalone script. *)
Lemma standalone_fill_one_spec (env : Env) (tool : list string) (total i : nat)
    (raster_file : Path) (s : state) (r : res unit) (s' : state) :
  Standalone.fill_one env tool total i raster_file s = (r, s') ->
  raster_outputs s' = raster_outputs s
  /\ exists tr,
       log s' = (log s ++ tr)%list
       /\ (r = Ok tt
           \/ (r = Hang /\ In (EvRun (standalone_fill_cmd tool raster_file) None Never) tr)
           \/ exists m, r = Raised (OSError m)
                        /\ In (EvRun (standalone_fill_cmd tool raster_file) None (SpawnFails m)) tr).
Proof.
  unfold Standalone.fill_one. cbv zeta. fold (standalone_fill_cmd tool raster_file).
  unfold bind at 1. unfold print at 1. unfold emit at 1.
  unfold bind at 1. rewrite standalone_run_command_eq. cbn [fs clock].
  destruct (exec env (clock s) (standalone_fill_cmd tool raster_file) (fs s)) as [b fs'].
  cbn [fst snd].
  destruct b as [secs code err | | msg];
    [destruct (code =? 0)%Z; [|destruct (Py.truthy err)] | |];
    unfold print, emit; intros H; injection H as <- <-; (split; [reflexivity|]); eexists;
    (split; [simpl; rewrite <- ?app_assoc; simpl; reflexivity|]); simpl; eauto 8.
Qed.

Lemma standalone_fill_loop_cons (env : Env) (tool : list string) (total i : nat)
    (raster_file : Path) (rest : list (nat * Path)) (s : state) :
  Standalone.fill_loop env tool total ((i, raster_file) :: rest) s
  = match fst (Standalone.fill_one env tool total i raster_file s) with
    | Ok _ => Standalone.fill_loop env tool total rest
                (snd (Standalone.fill_one env tool total i raster_file s))
    | Raised e => (Raised e, snd (Standalone.fill_one env tool total i raster_file s))
    | Hang => (Hang, snd (Standalone.fill_one env tool total i raster_file s))
    end.
Proof.
  unfold Standalone.fill_loop. simpl for_. unfold bind at 1 2. cbn [fst snd].
  destruct (Standalone.fill_one env tool total i raster_file s) as [[[] | e |] s']; reflexivity.
Qed.

Lemma standalone_fill_loop_spec (env : Env) (tool : list string) (total : nat)
    (items : list (nat * Path)) :
  forall s r s',
    Standalone.fill_loop env tool total items s = (r, s') ->
    raster_outputs s' = raster_outputs s
    /\ exists tr,
         log s' = (log s ++ tr)%list
         /\ (r = Ok tt
             \/ (r = Hang /\ exists cmd, In (EvRun cmd None Never) tr)
             \/ exists m raster_file,
                  r = Raised (OSError m)
                  /\ In (EvRun (standalone_fill_cmd tool raster_file) None (SpawnFails m)) tr).
Proof.
  induction items as [|[i x] rest IH]; intros s r s' H.
  - unfold Standalone.fill_loop in H. simpl in H. apply ret_inv in H. destruct H as [-> ->].
    split; [reflexivity|]. exists []. rewrite app_nil_r. split; [reflexivity | now left].
  - rewrite standalone_fill_loop_cons in H.
    destruct (Standalone.fill_one env tool total i x s) as [r1 s1] eqn:E. cbn [fst snd] in H.
    apply standalone_fill_one_spec in E. destruct E as (Hro1 & tr1 & Hlog1 & Hr1).
    destruct Hr1 as [-> | [[-> Hin] | (m & -> & Hin)]].
    + apply IH in H. destruct H as (Hro & tr & Hlog & Hr).
      split; [now rewrite Hro, Hro1|]. exists (tr1 ++ tr)%list. split; [log_eq|].
      destruct Hr as [-> | [[-> (cmd & Hin)] | (m & y & -> & Hin)]].
      * now left.
      * right. left. split; [reflexivity|]. exists cmd. apply in_app_iff. now right.
      * right. right. exists m, y. split; [reflexivity|]. apply in_app_iff. now right.
    + injection H as <- <-. split; [exact Hro1|]. exists tr1. split; [exact Hlog1|].
      right. left. split; [reflexivity|]. now exists (standalone_fill_cmd tool x).
    + injection H as <- <-. split; [exact Hro1|]. exists tr1. split; [exact Hlog1|].
      right. right. now exists m, x.
Qed.

Lemma standalone_fill_stage_spec (env : Env) (s : state) (r : res unit) (s' : state) :
  Standalone.fill_stage env s = (r, s') ->
  raster_outputs s' = raster_outputs s
  /\ exists tr,
       log s' = (log s ++ tr)%list
       /\ (r = Ok tt
           \/ (r = Hang /\ exists cmd, In (EvRun cmd None Never) tr)
           \/ exists m tool raster_file,
                In tool opciones /\ r = Raised (OSError m)
                /\ In (EvRun (standalone_fill_cmd tool raster_file) None (SpawnFails m)) tr).
Proof.
  unfold Standalone.fill_stage. unfold bind at 1. unfold get_raster_outputs at 1.
  destruct (raster_outputs s) as [|x rasters] eqn:Hrs.
  - intros H. apply ret_inv in H. destruct H as [-> ->].
    split; [now rewrite Hrs|]. exists []. rewrite app_nil_r. split; [reflexivity | now left].
  - intros H. rewrite <- Hrs.
    apply bind_inv in H. destruct H as [(a & s0 & H0 & H) | [(e & H0 & _) | (H0 & _)]];
      apply emit_inv in H0; destruct H0 as [H0 ->]; try discriminate.
    apply bind_inv in H. destruct H as [(a1 & s0 & H1 & H) | [(e & H1 & _) | (H1 & _)]];
      apply emit_inv in H1; destruct H1 as [H1 ->]; try discriminate.
    apply bind_inv in H. destruct H as [(a2 & s0 & H2 & H) | [(e & H2 & _) | (H2 & _)]];
      apply emit_inv in H2; destruct H2 as [H2 ->]; try discriminate.
    unfold Standalone.get_fillnodata_command in H. unfold bind at 1 in H.
    match type of H with
    | context [probe env opciones ?st] =>
        destruct (probe_spec env opciones st) as (found & s3 & Hp & Hro3 & _ & Hfound)
    end.
    rewrite Hp in H. cbn [raster_outputs add_events] in Hro3.
    destruct found as [tool|].
    + destruct Hfound as (pre & post & fails & b & Hop & _ & _ & _ & Hlog3).
      apply bind_inv in H. destruct H as [(a4 & s4 & H4 & H) | [(e & H4 & _) | (H4 & _)]];
        apply emit_inv in H4; destruct H4 as [H4 ->]; try discriminate.
      apply standalone_fill_loop_spec in H. cbn [raster_outputs log add_events] in H.
      destruct H as (Hro & tr & Hlog & Hr).
      split; [now rewrite Hro, Hro3|]. eexists.
      split; [rewrite Hlog, Hlog3; cbn [log add_events]; rewrite <- !app_assoc; reflexivity|].
      destruct Hr as [-> | [[-> (cmd & Hin)] | (m & y & -> & Hin)]].
      * now left.
      * right. left. split; [reflexivity|]. exists cmd.
        repeat (apply in_app_iff; right). exact Hin.
      * right. right. exists m, tool, y.
        split; [rewrite Hop; apply in_app_iff; right; now left|]. split; [reflexivity|].
        repeat (apply in_app_iff; right). exact Hin.
    + destruct Hfound as (fails & _ & _ & Hlog3).
      apply bind_inv in H. destruct H as [(a4 & s4 & H4 & H) | [(e & H4 & _) | (H4 & _)]];
        apply emit_inv in H4; destruct H4 as [H4 ->]; try discriminate.
      apply emit_inv in H. destruct H as [-> ->].
      split; [exact Hro3|]. eexists.
      split; [cbn [log add_events]; rewrite Hlog3; cbn [log add_events];
              rewrite <- !app_assoc; reflexivity|].
      now left.
Qed.

(* ===================================================================== *)
(** * The final clean-up of the standalone script                         *)
(* ===================================================================== *)

(** Deleting a list of distinct existing files: all of them are deleted
    and nothing else changes, unless a deletion fails. *)
Lemma unlink_all_spec (env : Env) (ps : list Path) :
  forall s r s',
    Standalone.unlink_all env ps s = (r, s') ->
    NoDup ps -> (forall p, In p ps -> fs_exists (fs s) p = true) ->
    raster_outputs s' = raster_outputs s
    /\ ((r = Ok tt
         /\ log s' = (log s ++ map EvUnlink ps)%list
         /\ (forall p, In p ps -> fs_exists (fs s') p = false)
         /\ (forall q, ~ In q ps -> fs_lookup (fs s') q = fs_lookup (fs s) q))
        \/ (exists msg p tr, r = Raised (OSError msg)
                             /\ log s' = (log s ++ tr)%list
                             /\ In p ps /\ io_error env (clock s) (OpUnlink p) = Some msg)).
Proof.
  induction ps as [|p ps IH]; intros s r s' H Hnd Hex.
  - unfold Standalone.unlink_all in H. simpl in H. apply ret_inv in H. destruct H as [-> ->].
    split; [reflexivity|]. left. simpl. rewrite app_nil_r. repeat split; tauto.
  - unfold Standalone.unlink_all in H. simpl for_ in H.
    fold (Standalone.unlink_all env ps) in H.
    unfold bind at 1 2 in H. unfold unlink at 1 in H.
    rewrite (Hex p (or_introl eq_refl)) in H. simpl negb in H. cbv iota in H.
    destruct (io_error env (clock s) (OpUnlink p)) as [msg0|] eqn:Hio.
    + injection H as <- <-. split; [reflexivity|]. right. exists msg0, p, [].
      rewrite app_nil_r. repeat split; [now left | exact Hio].
    + unfold ret at 1 in H. cbv beta iota in H.
      inversion Hnd as [|? ? Hnotin Hnd']; subst.
      apply IH in H; [|exact Hnd'|].
      * cbn [fs clock log raster_outputs] in H. destruct H as (Hro & Hr).
        split; [exact Hro|].
        destruct Hr as [(-> & Hlog & Hgone & Hframe) | (msg & q & tr & -> & Hlog & Hq & Hioq)].
        -- left. split; [reflexivity|].
           split; [rewrite Hlog; simpl; now rewrite <- app_assoc|].
           split.
           ++ intros q [<- | Hq]; [|now apply Hgone].
              unfold fs_exists. rewrite (Hframe p Hnotin). now rewrite fs_lookup_remove_same.
           ++ intros q Hq. rewrite Hframe by (intros Hin; apply Hq; now right).
              apply fs_lookup_remove_other. intros ->. apply Hq. now left.
        -- right. exists msg, q, ([EvUnlink p] ++ tr)%list. split; [reflexivity|].
           split; [rewrite Hlog; now rewrite <- app_assoc|]. split; [now right | exact Hioq].
      * intros q Hq. cbn [fs]. rewrite fs_exists_remove_other; [apply Hex; now right|].
        intros ->. contradiction.
Qed.

Lemma glob_exists (files : FS) (folder : Path) (suf : string) (p : Path) :
  In p (glob files folder suf) -> fs_exists files p = true.
Proof. intros H. apply glob_spec in H. apply fs_exists_In. tauto. Qed.

(** A folder from which every matching file has been deleted, and to
    which nothing was added, holds no matching file. *)
Lemma glob_after_unlinks (files files' : FS) (folder : Path) (suf : string) :
  (forall p, In p (glob files folder suf) -> fs_exists files' p = false) ->
  (forall q, ~ In q (glob files folder suf) -> fs_lookup files' q = fs_lookup files q) ->
  glob files' folder suf = [].
Proof.
  intros Hgone Hframe. destruct (glob files' folder suf) as [|p l] eqn:E; [reflexivity|].
  exfalso. assert (Hp : In p (glob files' folder suf)) by (rewrite E; now left).
  pose proof (glob_exists _ _ _ _ Hp) as Hex.
  destruct (in_dec (list_eq_dec string_dec) p (glob files folder suf)) as [Hin | Hnin].
  - rewrite (Hgone p Hin) in Hex. discriminate.
  - apply Hnin. apply glob_spec. apply glob_spec in Hp. destruct Hp as [_ Hm].
    split; [|exact Hm]. apply fs_exists_In.
    unfold fs_exists in *. now rewrite <- (Hframe p Hnin).
Qed.

(** The clean-up at the end of the standalone script: every file of the
    transient folder whose name ends with ".json" is deleted, whoever
    wrote it, and no other file is touched; unless a deletion fails. *)
Lemma cleanup_temp_spec (env : Env) (s : state) (r : res unit) (s' : state) :
  Standalone.cleanup_temp env s = (r, s') ->
  raster_outputs s' = raster_outputs s
  /\ ((r = Ok tt
       /\ log s' = (log s ++ EvPrint "🧹 Limpiando archivos temporales..."
                    :: map EvUnlink (glob (fs s) Standalone.TEMP_FOLDER ".json"))%list
       /\ glob (fs s') Standalone.TEMP_FOLDER ".json" = []
       /\ (forall q, ~ In q (glob (fs s) Standalone.TEMP_FOLDER ".json") ->
                     fs_lookup (fs s') q = fs_lookup (fs s) q))
      \/ (exists msg p tr, r = Raised (OSError msg)
                           /\ log s' = (log s ++ tr)%list
                           /\ io_error env (clock s) (OpUnlink p) = Some msg)).
Proof.
  unfold Standalone.cleanup_temp, bind, print, emit, get_fs. cbn [fs].
  intros H. apply unlink_all_spec in H.
  - cbn [fs clock log raster_outputs] in H. destruct H as (Hro & Hr). split; [exact Hro|].
    destruct Hr as [(-> & Hlog & Hgone & Hframe) | (msg & p & tr & -> & Hlog & _ & Hio)].
    + left. split; [reflexivity|]. split; [rewrite Hlog; now rewrite <- app_assoc|].
      split; [now apply glob_after_unlinks with (fs s) | exact Hframe].
    + right. exists msg, p. eexists. split; [reflexivity|].
      split; [rewrite Hlog; rewrite <- app_assoc; reflexivity | exact Hio].
  - apply glob_NoDup.
  - intros p Hp. cbn [fs]. now apply glob_exists in Hp.
Qed.

(* ===================================================================== *)
(** * The whole batch                                                     *)
(* ===================================================================== *)

Lemma map_snd_enumerate1 {A} (l : list A) : map snd (enumerate1 l) = l.
Proof.
  unfold enumerate1. generalize 1. induction l as [|x l IH]; intros n; simpl; [reflexivity|].
  now rewrite IH.
Qed.

(** Finding an event in a log that is written as a concatenation. *)
Ltac find_in :=
  first [ assumption
        | left; reflexivity
        | apply in_app_iff; first [ right; find_in | left; find_in ]
        | right; find_in ].

(** The whole standalone script. *)
Lemma standalone_main_spec (env : Env) (s : state) :
  exists r s',
    Standalone.main env s = (r, s')
    /\ match Standalone.laz_files (fs s) with
       | [] =>
           r = Raised SystemExit
           /\ s' = add_events s
                     [EvPrint ("📦 Encontrados " ++ Py.str_nat 0 ++ " archivos LAZ para procesar" ++ nl);
                      EvPrint "⚠️  No se encontraron archivos .laz en la carpeta de entrada"]
       | found =>
           exists tr,
             log s' = (log s ++ tr)%list
             /\ ((r = Ok tt
                  /\ glob (fs s') Standalone.TEMP_FOLDER ".json" = []
                  /\ exists done,
                       subseq done found
                       /\ raster_outputs s'
                          = map (fun l => Standalone.raster_output (stem l)) done
                       /\ In (EvPrint (standalone_summary (List.length done) (List.length found))) tr)
                 \/ (r = Hang /\ exists cmd, In (EvRun cmd None Never) tr)
                 \/ (exists m, r = Raised (OSError m)
                     /\ ((exists tool raster_file,
                            In tool opciones
                            /\ In (EvRun (standalone_fill_cmd tool raster_file) None (SpawnFails m)) tr)
                         \/ exists t p, io_error env t (OpUnlink p) = Some m)))
       end.
Proof.
  destruct (Standalone.main env s) as [r s'] eqn:E. exists r, s'. split; [reflexivity|].
  unfold Standalone.main in E. unfold bind at 1 in E. unfold get_fs at 1 in E. cbv zeta in E.
  destruct (Standalone.laz_files (fs s)) as [|x found] eqn:Hfound.
  - unfold bind, print, emit, raise in E. injection E as <- <-.
    split; [reflexivity|]. unfold add_events. cbn [fs clock log raster_outputs current_step].
    now rewrite <- app_assoc.
  - apply bind_inv in E. destruct E as [(a & s0 & H0 & E) | [(e & H0 & _) | (H0 & _)]];
      apply emit_inv in H0; destruct H0 as [H0 ->]; try discriminate.
    unfold bind at 1 in E. unfold reset_raster_outputs at 1 in E.
    cbn [fs clock log raster_outputs current_step add_events] in E.
    unfold bind at 1 in E.
    match type of E with
    | context [Standalone.process_items env ?n ?items ?st] =>
        destruct (standalone_process_items_spec env n items st)
          as (r1 & s1 & done & tr1 & Hp & Hsub & Hro1 & Hlog1 & Hr1)
    end.
    rewrite Hp in E. rewrite map_snd_enumerate1 in Hsub.
    cbn [raster_outputs log app] in Hro1, Hlog1.
    destruct Hr1 as [-> | [-> (cmd & Hin)]].
    + (* the items are done: the fill stage *)
      apply bind_inv in E. destruct E as [(a2 & s2 & H2 & E) | [(e & H2 & ->) | (H2 & ->)]];
        apply standalone_fill_stage_spec in H2; destruct H2 as (Hro2 & tr2 & Hlog2 & Hr2).
      * (* the clean-up *)
        apply bind_inv in E. destruct E as [(a3 & s3 & H3 & E) | [(e & H3 & ->) | (H3 & ->)]];
          apply cleanup_temp_spec in H3; destruct H3 as (Hro3 & Hr3).
        -- destruct Hr3 as [(_ & Hlog3 & Hglob & _) | (msg & p & tr3 & ? & _)]; [|discriminate].
           unfold bind, print, emit, get_raster_outputs in E. injection E as <- <-.
           cbn [fs clock log raster_outputs current_step]. eexists. split.
           { rewrite Hlog3, Hlog2, Hlog1. rewrite <- !app_assoc. reflexivity. }
           left. split; [reflexivity|]. split; [exact Hglob|].
           exists done. split; [exact Hsub|]. split; [now rewrite Hro3, Hro2|].
           rewrite Hro3, Hro2, Hro1, length_map. unfold standalone_summary. find_in.
        -- destruct Hr3 as [(? & _) | (msg & p & tr3 & Hr & Hlog3 & Hio)]; [discriminate|].
           injection Hr as ->. eexists. split.
           { rewrite Hlog3, Hlog2, Hlog1. rewrite <- !app_assoc. reflexivity. }
           right. right. exists msg. split; [reflexivity|].
           right. now exists (clock s2), p.
        -- destruct Hr3 as [(? & _) | (msg & p & tr3 & ? & _)]; discriminate.
      * destruct Hr2 as [? | [[? _] | (m & tool & y & Htool & Hr & Hin)]]; try discriminate.
        injection Hr as ->. eexists. split.
        { rewrite Hlog2, Hlog1. rewrite <- !app_assoc. reflexivity. }
        right. right. exists m. split; [reflexivity|]. left. exists tool, y.
        split; [exact Htool|]. repeat (apply in_app_iff; right). exact Hin.
      * destruct Hr2 as [? | [[_ (cmd & Hin)] | (m & tool & y & _ & ? & _)]]; try discriminate.
        eexists. split.
        { rewrite Hlog2, Hlog1. rewrite <- !app_assoc. reflexivity. }
        right. left. split; [reflexivity|]. exists cmd.
        repeat (apply in_app_iff; right). exact Hin.
    + injection E as <- <-. eexists. split.
      { rewrite Hlog1. rewrite <- !app_assoc. reflexivity. }
      right. left. split; [reflexivity|]. exists cmd. apply in_app_iff. now right.
Qed.

(** The counts the QGIS algorithm returns: the rasters produced, at most
    as many as the items discovered. *)
Lemma qgis_result_counts (env : Env) (P : QGIS.params) (s s' : state) (res : QGIS.result) :
  QGIS.processAlgorithm env P s = (Ok res, s') ->
  QGIS.PROCESSED_COUNT res = List.length (raster_outputs s')
  /\ QGIS.TOTAL_COUNT res = List.length (QGIS.laz_files (fs s) P)
  /\ QGIS.PROCESSED_COUNT res <= QGIS.TOTAL_COUNT res.
Proof.
  intros H. destruct (qgis_processAlgorithm_spec env P s) as (r & s1 & Hp & Hspec).
  rewrite H in Hp. injection Hp as <- <-.
  destruct (QGIS.laz_files (fs s) P) as [|x found].
  - destruct Hspec as [? _]. discriminate.
  - destruct Hspec as (done & Hsub & Hro & [Hr | (m & tool & y & pre & _ & _ & ? & _)]);
      [|discriminate].
    injection Hr as ->. cbn [QGIS.PROCESSED_COUNT QGIS.TOTAL_COUNT].
    rewrite Hro, length_map. repeat split. exact (subseq_length _ _ Hsub).
Qed.

(** The spec's scenario: three files, every stage succeeds; three of
    three are reported, and three fills are run. *)
Example three_of_three :
  fst (QGIS.processAlgorithm env_all_ok twin_params
         (initial [ (["in"; "a.laz"], Blob); (["in"; "b.laz"], Blob); (["in"; "c.las"], Blob) ]))
  = Ok (QGIS.mkResult "out" 3 3)
  /\ List.length
       (filter (fun e => match e with
                         | EvRun (_ :: _ :: _ :: "-md" :: _) _ _ => true
                         | _ => false
                         end)
               (log (snd (QGIS.processAlgorithm env_all_ok twin_params
                            (initial [ (["in"; "a.laz"], Blob); (["in"; "b.laz"], Blob);
                                       (["in"; "c.las"], Blob) ]))))) = 3.
Proof. split; vm_compute; reflexivity. Qed.



Example one_of_two :
  fst (QGIS.processAlgorithm env_first_merge_fails twin_params (initial two_laz))
  = Ok (QGIS.mkResult "out" 1 2).
Proof. vm_compute. reflexivity. Qed.

Example deletion_failure_is_not_fatal :
  fst (QGIS.processAlgorithm env_locked_files twin_params (initial one_laz))
  = Ok (QGIS.mkResult "out" 1 1).
Proof. vm_compute. reflexivity. Qed.

(* ===================================================================== *)
(** * Transient pipeline files                                            *)
(* ===================================================================== *)

(** C3, as the code has it.  In the QGIS algorithm, when no deletion
    fails and the four stages of an item have returned
    normally, none of its four pipeline files is left at the end of the
    iteration, whatever the clean-up flag.  In the standalone script the
    pipeline files are not deleted item by item; when the script ends
    normally, no file whose name ends with ".json" is left in the
    transient folder, whatever the items did. *)
Theorem pipeline_files_removed :
  (forall (env : Env) (P : QGIS.params) (laz_file : Path) (s : state),
      no_deletion_fails env ->
      exists s' bs,
        QGIS.process_item env P laz_file s = (Ok tt, s')
        /\ ordered_stage_run (Some 300%Z) (qgis_stages P laz_file)
             (QGIS.raster_output P (stem laz_file)) s s' bs
        /\ (List.length bs = 4 /\ forallb (run_ok (Some 300%Z)) bs = true ->
            forall q, In q (qgis_pipeline_files P (stem laz_file)) -> fs_exists (fs s') q = false))
  /\ (forall (env : Env) (s s' : state),
         Standalone.main env s = (Ok tt, s') ->
         glob (fs s') Standalone.TEMP_FOLDER ".json" = []).
Proof.
  split.
  - intros env P laz_file s Hio.
    destruct (QGIS.process_item env P laz_file s) as [r s'] eqn:E.
    apply qgis_process_item_spec in E. destruct E as (-> & bs & ds & tr & Hrun).
    exists s', bs. split; [reflexivity|].
    split; [now apply qgis_item_run_ordered with env ds tr|].
    intros [Hl Hall].
    assert (Hc : complete (Some 300%Z) 4 bs = true) by (unfold complete; now rewrite Hl, Hall).
    destruct Hrun as (_ & _ & _ & _ & _ & _ & _ & Hgone).
    now apply (Hgone Hc Hio).
  - intros env s s' H.
    destruct (standalone_main_spec env s) as (r & s1 & Hm & Hspec).
    rewrite H in Hm. injection Hm as <- <-.
    destruct (Standalone.laz_files (fs s)).
    + destruct Hspec as [? _]. discriminate.
    + destruct Hspec as (tr & _ & [(_ & Hglob & _) | [[? _] | (m & ? & _)]]);
        [exact Hglob | discriminate | discriminate].
Qed.

Lemma env_all_ok_no_deletion_fails : no_deletion_fails env_all_ok.
Proof. intros t p. reflexivity. Qed.

Lemma pipeline_files_removed_witness :
  exists s' bs,
    QGIS.process_item env_all_ok twin_params ["in"; "a.laz"] (initial one_laz) = (Ok tt, s')
    /\ ordered_stage_run (Some 300%Z) (qgis_stages twin_params ["in"; "a.laz"])
         (QGIS.raster_output twin_params (stem ["in"; "a.laz"])) (initial one_laz) s' bs
    /\ (List.length bs = 4 /\ forallb (run_ok (Some 300%Z)) bs = true ->
        forall q, In q (qgis_pipeline_files twin_params (stem ["in"; "a.laz"])) ->
                  fs_exists (fs s') q = false).
Proof.
  exact (proj1 pipeline_files_removed env_all_ok twin_params ["in"; "a.laz"] (initial one_laz)
               env_all_ok_no_deletion_fails).
Defined.

(** C3, the claim as stated fails.  In the standalone script an item
    that succeeds leaves its four pipeline files in place at the end of
    its processing (they go at the end of the batch).  In the QGIS
    algorithm the first stage of the only item fails, the batch
    completes, and the pipeline file written for that stage is still in
    the transient folder. *)
Lemma pipeline_files_left_behind :
  raster_outputs (snd (Standalone.process_item env_all_ok 1 1 (Standalone.INPUT_FOLDER // "a.laz")
                         (initial with_old_json)))
  = [ Standalone.raster_output "a" ]
  /\ forallb (fs_exists (fs (snd (Standalone.process_item env_all_ok 1 1
                                    (Standalone.INPUT_FOLDER // "a.laz") (initial with_old_json)))))
             [ Standalone.pipeline_suelo "a"; Standalone.pipeline_edificios "a";
               Standalone.pipeline_merge "a"; Standalone.pipeline_raster "a" ] = true
  /\ fst (QGIS.processAlgorithm env_silent_failure twin_params (initial one_laz))
     = Ok (QGIS.mkResult "out" 0 1)
  /\ glob (fs (snd (QGIS.processAlgorithm env_silent_failure twin_params (initial one_laz))))
          (QGIS.temp_folder twin_params) ".json"
     = [ QGIS.pipeline_suelo twin_params "a" ].
Proof. repeat split; vm_compute; reflexivity. Qed.

(** C10.  The clean-up at the end of the standalone script deletes
    every file of the transient folder whose name ends with ".json": it
    lists the folder and deletes each entry, so that (when no deletion
    fails) none of them is left, no other file is touched, and a ".json"
    file that was in the folder before the run is gone after a run that
    ends normally. *)
Theorem standalone_cleanup_removes_every_json :
  (forall (env : Env) (s : state),
      no_deletion_fails env ->
      exists s',
        Standalone.cleanup_temp env s = (Ok tt, s')
        /\ log s' = (log s ++ EvPrint "🧹 Limpiando archivos temporales..."
                     :: map EvUnlink (glob (fs s) Standalone.TEMP_FOLDER ".json"))%list
        /\ (forall p, In p (glob (fs s) Standalone.TEMP_FOLDER ".json") ->
                      fs_exists (fs s') p = false)
        /\ glob (fs s') Standalone.TEMP_FOLDER ".json" = []
        /\ (forall q, ~ In q (glob (fs s) Standalone.TEMP_FOLDER ".json") ->
                      fs_lookup (fs s') q = fs_lookup (fs s) q))
  /\ (forall (env : Env) (files : FS) (s' : state) (p : Path),
         Standalone.main env (initial files) = (Ok tt, s') ->
         In p (glob files Standalone.TEMP_FOLDER ".json") ->
         fs_exists (fs s') p = false).
Proof.
  split.
  - intros env s Hio.
    destruct (Standalone.cleanup_temp env s) as [r s'] eqn:E.
    apply cleanup_temp_spec in E. destruct E as (_ & Hr).
    destruct Hr as [(-> & Hlog & Hglob & Hframe) | (msg & p & tr & _ & _ & Hp)];
      [|rewrite Hio in Hp; discriminate].
    exists s'. split; [reflexivity|]. split; [exact Hlog|].
    split; [|split; [exact Hglob | exact Hframe]].
    intros p Hp. destruct (fs_exists (fs s') p) eqn:Hex; [|reflexivity].
    exfalso. apply glob_spec in Hp. destruct Hp as [_ Hm].
    assert (Hin : In p (glob (fs s') Standalone.TEMP_FOLDER ".json")).
    { apply glob_spec. split; [now apply fs_exists_In | exact Hm]. }
    rewrite Hglob in Hin. contradiction.
  - intros env files s' p H Hp.
    destruct (standalone_main_spec env (initial files)) as (r & s1 & Hm & Hspec).
    rewrite H in Hm. injection Hm as <- <-.
    assert (Hglob : glob (fs s') Standalone.TEMP_FOLDER ".json" = []).
    { destruct (Standalone.laz_files (fs (initial files))).
      - destruct Hspec as [? _]. discriminate.
      - destruct Hspec as (tr & _ & [(_ & Hglob & _) | [[? _] | (m & ? & _)]]);
          [exact Hglob | discriminate | discriminate]. }
    destruct (fs_exists (fs s') p) eqn:Hex; [|reflexivity].
    exfalso. apply glob_spec in Hp. destruct Hp as [_ Hm].
    assert (Hin : In p (glob (fs s') Standalone.TEMP_FOLDER ".json")).
    { apply glob_spec. split; [now apply fs_exists_In | exact Hm]. }
    rewrite Hglob in Hin. contradiction.
Qed.

Lemma standalone_cleanup_witness :
  Standalone.main env_all_ok (initial with_old_json)
  = (Ok tt, snd (Standalone.main env_all_ok (initial with_old_json)))
  /\ In (Standalone.TEMP_FOLDER // "old.json") (glob with_old_json Standalone.TEMP_FOLDER ".json")
  /\ fs_exists (fs (snd (Standalone.main env_all_ok (initial with_old_json))))
               (Standalone.TEMP_FOLDER // "old.json") = false.
Proof.
  assert (H1 : Standalone.main env_all_ok (initial with_old_json)
               = (Ok tt, snd (Standalone.main env_all_ok (initial with_old_json))))
    by (vm_compute; reflexivity).
  assert (H2 : In (Standalone.TEMP_FOLDER // "old.json")
                  (glob with_old_json Standalone.TEMP_FOLDER ".json"))
    by (vm_compute; now left).
  split; [exact H1|]. split; [exact H2|].
  exact (proj2 standalone_cleanup_removes_every_json env_all_ok with_old_json _ _ H1 H2).
Defined.

Example old_json_deleted_text_kept :
  fs (snd (Standalone.main env_all_ok (initial with_old_json)))
  = [ (Standalone.INPUT_FOLDER // "a.laz", Blob);
      (Standalone.TEMP_FOLDER // "notes.txt", Blob) ].
Proof. vm_compute. reflexivity. Qed.

(* ===================================================================== *)
(** * Cancellation                                                        *)
(* ===================================================================== *)

(** C8, as the code has it.  The QGIS algorithm asks for cancellation
    at the head of every iteration of the item loop and of the fill loop,
    and nowhere else:
    - the command runner does not depend on the cancellation flag: a
      process handed to it runs to its end or to its timeout;
    - an iteration of the item loop, once begun, does not depend on the
      flag either and asks for it at no point: there is no check between
      the stages of an item;
    - the item loop asks before each item and stops when the answer is
      yes; so does the fill loop before each fill. *)
Theorem cancellation_between_items_only :
  (forall exec_ io c1 c2 (cmd : list string),
      QGIS._run_command (mkEnv exec_ io c1) cmd = QGIS._run_command (mkEnv exec_ io c2) cmd)
  /\ (forall exec_ io c1 c2 (P : QGIS.params) (laz_file : Path),
         QGIS.process_item (mkEnv exec_ io c1) P laz_file
         = QGIS.process_item (mkEnv exec_ io c2) P laz_file)
  /\ (forall (env : Env) (P : QGIS.params) (laz_file : Path) (s : state),
         exists s' tr,
           QGIS.process_item env P laz_file s = (Ok tt, s')
           /\ log s' = (log s ++ tr)%list
           /\ filter is_poll tr = [])
  /\ (forall (env : Env) (P : QGIS.params) (laz_file : Path) (rest : list Path) (s : state),
         QGIS.process_items env P (laz_file :: rest) s
         = if canceled env (clock s)
           then (Ok tt, add_events s [EvPoll true])
           else QGIS.process_items env P rest
                  (snd (QGIS.process_item env P laz_file (add_events s [EvPoll false]))))
  /\ (forall (env : Env) (P : QGIS.params) (tool : list string) (raster_file : Path)
             (rest : list Path) (s : state),
         QGIS.fill_loop env P tool (raster_file :: rest) s
         = if canceled env (clock s)
           then (Ok tt, add_events s [EvPoll true])
           else match fst (QGIS.fill_one env P tool raster_file (add_events s [EvPoll false])) with
                | Ok _ => QGIS.fill_loop env P tool rest
                            (snd (QGIS.fill_one env P tool raster_file (add_events s [EvPoll false])))
                | Raised e =>
                    (Raised e, snd (QGIS.fill_one env P tool raster_file (add_events s [EvPoll false])))
                | Hang =>
                    (Hang, snd (QGIS.fill_one env P tool raster_file (add_events s [EvPoll false])))
                end).
Proof.
  split; [reflexivity|]. split; [reflexivity|]. split; [|split].
  - intros env P laz_file s.
    destruct (QGIS.process_item env P laz_file s) as [r s'] eqn:E.
    apply qgis_process_item_spec in E.
    destruct E as (-> & bs & ds & tr & (Hlog & Hev & _)).
    exists s', tr. split; [reflexivity|]. split; [exact Hlog|].
    rewrite <- filter_poll_effect, Hev, filter_app, filter_poll_unlinks.
    unfold stage_trace. now rewrite filter_poll_stages.
  - apply qgis_process_items_cons.
  - intros env P tool raster_file rest s.
    unfold QGIS.fill_loop. simpl for_. unfold bind at 1 2. unfold QGIS.isCanceled at 1.
    fold (add_events s [EvPoll (canceled env (clock s))]).
    destruct (canceled env (clock s)); [reflexivity|].
    unfold bind at 1.
    destruct (QGIS.fill_one env P tool raster_file (add_events s [EvPoll false]))
      as [[[] | e |] s']; reflexivity.
Qed.

(** C8, the claim as stated fails: cancellation is requested during the
    first stage of the first item, and the three later stages of that
    item are still run, with no cancellation check between two pdal
    runs; the check comes before the second item, which is not begun. *)
Lemma no_check_between_stages :
  canceled env_cancel_during_first_stage 0 = false
  /\ canceled env_cancel_during_first_stage 1 = true
  /\ map (fun e => match e with
                   | EvRun cmd _ _ => Py.join " " cmd
                   | EvPoll c => if c then "canceled? yes" else "canceled? no"
                   | _ => ""
                   end)
         (filter (fun e => is_run e || is_poll e)
                 (log (snd (QGIS.processAlgorithm env_cancel_during_first_stage twin_params
                              (initial two_laz)))))
     = [ "canceled? no";
         "pdal pipeline out/temp/pipeline_suelo_a.json";
         "pdal pipeline out/temp/pipeline_edificios_a.json";
         "pdal pipeline out/temp/pipeline_merge_a.json";
         "pdal pipeline out/temp/pipeline_raster_a.json";
         "canceled? yes";
         "python -m osgeo_utils.gdal_fillnodata --help";
         "canceled? yes" ]
  /\ polls_between_pdal_runs false
       (log (snd (QGIS.processAlgorithm env_cancel_during_first_stage twin_params
                    (initial two_laz)))) = false.
Proof. repeat split; vm_compute; reflexivity. Qed.

(* ===================================================================== *)
(** * Names of the outputs                                                *)
(* ===================================================================== *)

Lemma length_chars (s : string) : List.length (Py.chars s) = String.length s.
Proof. unfold Py.chars. induction s as [|c s IH]; simpl; [reflexivity | now rewrite IH]. Qed.

Lemma string_length_append (a b : string) :
  String.length (a ++ b) = String.length a + String.length b.
Proof. induction a as [|c a IH]; simpl; [reflexivity | now rewrite IH]. Qed.

Lemma substring_prefix (a b : string) : substring 0 (String.length a) (a ++ b) = a.
Proof.
  induction a as [|c a IH]; simpl.
  - now destruct b.
  - now rewrite IH.
Qed.

Lemma rfind_dot_rev_app (l r : list ascii) :
  (forall c, In c l -> c <> "."%char) ->
  Py.rfind_dot_rev (l ++ "."%char :: r) = Some (List.length r).
Proof.
  induction l as [|c l IH]; intros H; simpl.
  - reflexivity.
  - destruct (Ascii.eqb c ".") eqn:E.
    + apply Ascii.eqb_eq in E. exfalso. apply (H c); [now left | exact E].
    + apply IH. intros c' Hc'. apply H. now right.
Qed.

Lemma rfind_dot_ext (pre ext : string) :
  (forall c, In c (Py.chars ext) -> c <> "."%char) ->
  Py.rfind_dot (pre ++ "." ++ ext) = Some (String.length pre).
Proof.
  intros H. unfold Py.rfind_dot. rewrite chars_append.
  change (Py.chars ("." ++ ext)) with ("."%char :: Py.chars ext).
  rewrite rev_app_distr. simpl rev. rewrite <- app_assoc. simpl app.
  rewrite rfind_dot_rev_app.
  - now rewrite length_rev, length_chars.
  - intros c Hc. apply H. now apply in_rev.
Qed.

(** [PurePath.stem] on a name with an extension: the name without the
    extension, unless nothing comes before the dot. *)
Lemma stem_of_name_ext (pre ext : string) :
  is_extension ext ->
  Py.stem_of_name (pre ++ "." ++ ext) = if Py.truthy pre then pre else "." ++ ext.
Proof.
  intros [Hne Hdots]. unfold Py.stem_of_name. rewrite (rfind_dot_ext pre ext Hdots).
  rewrite !string_length_append.
  destruct pre as [|c pre]; [reflexivity|].
  cbn [Py.truthy]. destruct ext as [|e ext]; [contradiction|].
  match goal with |- (if ?b then _ else _) = _ => replace b with true end.
  - apply substring_prefix.
  - symmetry. apply andb_true_iff. split; apply Nat.ltb_lt; simpl; lia.
Qed.

Lemma laz_is_extension : is_extension "laz".
Proof. split; [discriminate|]. simpl. intros c [<- | [<- | [<- | []]]]; discriminate. Qed.

Lemma las_is_extension : is_extension "las".
Proof. split; [discriminate|]. simpl. intros c [<- | [<- | [<- | []]]]; discriminate. Qed.

Lemma tif_is_extension : is_extension "tif".
Proof. split; [discriminate|]. simpl. intros c [<- | [<- | [<- | []]]]; discriminate. Qed.

Lemma append_assoc (a b c : string) : (a ++ b) ++ c = a ++ b ++ c.
Proof. induction a as [|x a IH]; simpl; [reflexivity | now rewrite IH]. Qed.

(** The stem of a raster path is the base name followed by "_raster",
    whatever the base name. *)
Lemma stem_raster_name (d : Path) (b : string) :
  stem (d // (b ++ "_raster.tif")) = b ++ "_raster".
Proof.
  unfold stem. rewrite name_join.
  change (b ++ "_raster.tif") with (b ++ "_raster" ++ "." ++ "tif").
  rewrite <- append_assoc. rewrite (stem_of_name_ext _ _ tif_is_extension).
  destruct (b ++ "_raster") eqn:E; [|reflexivity].
  destruct b; discriminate E.
Qed.
